(** * Daily allowance and countdown engine: model and verification

    A shallow embedding of the two pages of the application:
    - the settings page ([SettingsPage]): loading, editing and saving the
      settings record, and the "reset today" operation;
    - the main page ([Home]): the allowance policy, the creation of the
      record of a day with carry-over, the countdown commands (start,
      tick, pause, finish, toggle of a checklist item), and the page
      around them: the confirmation dialog and the controls the page
      renders for its state.

    Conventions of the embedding.
    - Seconds, minutes locked in a record and millisecond timestamps are
      integers ([Z]), as they are in the page as long as they stay below
      2^53; [Math.floor(x / 1000)] on integers is [Z.div].
    - A value read from the settings payload is a JavaScript number that
      may be fractional or infinite: type [number] below, with the [Math]
      functions the loaders use.
    - [localStorage] slots are modelled by what [JSON.parse] makes of
      their content ([slot]); the records map is a [gmap] from date keys
      to records.
    - A nullable field is an [option]; a test by truthiness ([!x]) is
      spelled out ([falsy]): for a number it rejects [null] and [0].
    - The main page computes dates in Tokyo, at a fixed nine hours from
      UTC; the settings page computes them in the zone of the machine
      ([Zone]), which the statements about it take at a fixed offset. *)

From Stdlib Require Import ZArith QArith Qround Lia String Ascii List.
From stdpp Require Import base gmap strings list.
Import ListNotations.

Local Open Scope string_scope.
Local Open Scope Z_scope.

(** ** JavaScript values *)

Module JS.

(** A JavaScript number: a finite value (every finite double is a
    rational), the two infinities, or NaN. *)
Inductive number :=
| Fin (q : Q)
| PosInf
| NegInf
| NaN.

Definition int (z : Z) : number := Fin (inject_Z z).

(** [Math.round]: the nearest integer, halves rounded up.  (The sign
    of a zero result is not modelled.) *)
Definition Math_round (x : number) : number :=
  match x with
  | Fin q => int (Qfloor (q + (1 # 2)))
  | _ => x
  end.

(** [Math.min] and [Math.max] of two arguments; NaN is contagious. *)
Definition Math_min (a b : number) : number :=
  match a, b with
  | NaN, _ | _, NaN => NaN
  | NegInf, _ | _, NegInf => NegInf
  | PosInf, y => y
  | x, PosInf => x
  | Fin p, Fin q => if Qle_bool p q then Fin p else Fin q
  end.

Definition Math_max (a b : number) : number :=
  match a, b with
  | NaN, _ | _, NaN => NaN
  | PosInf, _ | _, PosInf => PosInf
  | NegInf, y => y
  | x, NegInf => x
  | Fin p, Fin q => if Qle_bool p q then Fin q else Fin p
  end.

(** What [JSON.parse] can return.  A number literal is finite or, when
    it overflows a double, infinite; it is never NaN, so [JNum] takes
    its argument from [jnumber]. *)
Inductive jnumber :=
| JFin (q : Q)
| JInf (negative : bool).

Definition number_of (x : jnumber) : number :=
  match x with
  | JFin q => Fin q
  | JInf false => PosInf
  | JInf true => NegInf
  end.

#[warnings="-register-all"]
Inductive json :=
| JNull
| JBool (b : bool)
| JNum (x : jnumber)
| JStr (s : string)
| JArr (items : list json)
| JObj (fields : list (string * json)).

(** A value that may be [undefined] (an absent property). *)
Abbreviation value := (option json).

(** Truthiness, as [Boolean(v)], [!v] and [v && ...] see it. *)
Definition Boolean (v : value) : bool :=
  match v with
  | None => false
  | Some JNull => false
  | Some (JBool b) => b
  | Some (JNum (JFin q)) => negb (Qeq_bool q 0)
  | Some (JNum (JInf _)) => true
  | Some (JStr s) => negb (String.eqb s "")
  | Some (JArr _) => true
  | Some (JObj _) => true
  end.

(** Property lookup in the fields of an object literal: in the result of
    [JSON.parse] the last occurrence of a duplicated key wins. *)
Fixpoint lookup_field (k : string) (fields : list (string * json)) : value :=
  match fields with
  | [] => None
  | (k', v) :: rest =>
      match lookup_field k rest with
      | Some w => Some w
      | None => if String.eqb k' k then Some v else None
      end
  end.

(** [parsed.k] for one of the setting names [k], when [parsed] is not
    [null]: numbers, booleans, strings and arrays have no property of such
    a name.  (Reading a property of [null] throws; the loaders treat that
    case apart.) *)
Definition prop (parsed : json) (k : string) : value :=
  match parsed with
  | JObj fields => lookup_field k fields
  | _ => None
  end.

(** What [JSON.stringify] writes for a number: [null] unless finite. *)
Definition stringify_number (x : number) : json :=
  match x with
  | Fin q => JNum (JFin q)
  | _ => JNull
  end.

(** A [localStorage] slot, seen through [getItem] and [JSON.parse]:
    nothing stored (or the empty text), a text [JSON.parse] rejects, or
    a text it reads as a value.  [setItem(key, JSON.stringify(x))] leaves
    [Parsed] of the JSON image of [x]. *)
Inductive slot :=
| Absent
| Unparsable
| Parsed (j : json).

(** *** Texts of numbers *)

Definition digit_char (d : Z) : ascii :=
  ascii_of_N (48 + Z.to_N d).

Fixpoint digits_go (fuel : nat) (n : Z) (acc : string) : string :=
  let acc' := String (digit_char (n mod 10)) acc in
  match fuel with
  | O => acc'
  | S fuel' => if n <? 10 then acc' else digits_go fuel' (n / 10) acc'
  end.

(** The decimal text of an integer, as a template literal or
    [toString()] prints it. *)
Definition decimal (n : Z) : string :=
  if n <? 0 then "-" ++ digits_go (Z.to_nat (Z.log2 (- n))) (- n) ""
  else digits_go (Z.to_nat (Z.log2 n)) n "".

Definition is_digit (c : ascii) : bool :=
  let n := N_of_ascii c in ((48 <=? n) && (n <=? 57))%N.

Fixpoint all_digits (s : string) : bool :=
  match s with
  | EmptyString => true
  | String c rest => is_digit c && all_digits rest
  end.

(** The text of a number.  It is spelled out for the integers below
    10^21 in magnitude and for the infinities.  The text of any other
    number has a fraction point or an exponent; its digits depend on the
    binary representation and are not modelled ([None]). *)
Definition Number_toString (x : jnumber) : option string :=
  match x with
  | JInf false => Some "Infinity"
  | JInf true => Some "-Infinity"
  | JFin q =>
      let n := Qfloor q in
      if Qeq_bool q (inject_Z n) && (Z.abs n <? 10 ^ 21)
      then Some (decimal n) else None
  end.

(** [ToString(v)], the conversion [RegExp.prototype.test] applies to
    its argument.  An array is joined with commas, its [null] elements
    printing as the empty text. *)
Fixpoint ToString (v : json) : option string :=
  match v with
  | JNull => Some "null"
  | JBool true => Some "true"
  | JBool false => Some "false"
  | JNum x => Number_toString x
  | JStr s => Some s
  | JObj _ => Some "[object Object]"
  | JArr items =>
      let element (x : json) : option string :=
        match x with
        | JNull => Some ""
        | _ => ToString x
        end in
      (fix join (l : list json) : option string :=
         match l with
         | [] => Some ""
         | [x] => element x
         | x :: rest =>
             match element x, join rest with
             | Some s, Some r => Some (s ++ "," ++ r)
             | _, _ => None
             end
         end) items
  end.

(** [/^\d{4}$/.test(v)]: the text of [v] is four decimal digits.  A text
    that is not modelled holds a character that is no digit. *)
Definition test_four_digits (v : json) : bool :=
  match ToString v with
  | Some s => (Nat.eqb (String.length s) 4) && all_digits s
  | None => false
  end.

(** [Number(text)] on a component of a date key.  The model reads a
    non-empty run of decimal digits and answers every other text with
    NaN ([None]).  It is exact on the runs of up to fifteen digits, hence
    on the components of the keys the pages write. *)
Fixpoint digits_value (s : string) (acc : Z) : Z :=
  match s with
  | EmptyString => acc
  | String c rest => digits_value rest (10 * acc + (Z.of_N (N_of_ascii c) - 48))
  end.

Definition Number_of_text (s : string) : option Z :=
  match s with
  | EmptyString => None
  | _ => if all_digits s then Some (digits_value s 0) else None
  end.

(** [text.padStart(2, "0")]. *)
Definition padStart2 (s : string) : string :=
  match String.length s with
  | O => "00"
  | S O => "0" ++ s
  | _ => s
  end.

(** [text.split("-")]. *)
Fixpoint split_dash (s : string) (current : string) : list string :=
  match s with
  | EmptyString => [current]
  | String c rest =>
      if Ascii.eqb c "-"%char then current :: split_dash rest ""
      else split_dash rest (current ++ String c "")
  end.

End JS.

(** ** The calendar of [Date]

    Time values are milliseconds since 1970-01-01T00:00:00Z.  The
    conversions between day numbers and civil dates are those of the
    proleptic Gregorian calendar that [Date] implements. *)

Module Calendar.

Definition msPerDay : Z := 86400000.

(** Day number of the civil date [y]-[m]-[d], for [m] from 1 to 12. *)
Definition days_from_civil (y m d : Z) : Z :=
  let y' := if m <=? 2 then y - 1 else y in
  let era := y' / 400 in
  let yoe := y' - era * 400 in
  let mp := if m <=? 2 then m + 9 else m - 3 in
  let doy := (153 * mp + 2) / 5 + d - 1 in
  let doe := yoe * 365 + yoe / 4 - yoe / 100 + doy in
  era * 146097 + doe - 719468.

(** Year, month (1 to 12) and day of month of a day number. *)
Definition civil_from_days (z : Z) : Z * Z * Z :=
  let z' := z + 719468 in
  let era := z' / 146097 in
  let doe := z' - era * 146097 in
  let yoe := (doe - doe / 1460 + doe / 36524 - doe / 146096) / 365 in
  let doy := doe - (365 * yoe + yoe / 4 - yoe / 100) in
  let mp := (5 * doy + 2) / 153 in
  let d := doy - (153 * mp + 2) / 5 + 1 in
  let m := if mp <? 10 then mp + 3 else mp - 9 in
  let y := yoe + era * 400 in
  (if m <=? 2 then y + 1 else y, m, d).

(** [Day(t)] and [WeekDay(t)] (0 is Sunday). *)
Definition Day (t : Z) : Z := t / msPerDay.
Definition WeekDay (t : Z) : Z := (Day t + 4) mod 7.

(** [MakeDay]: the month index and the day of month may overflow. *)
Definition MakeDay (year monthIndex date : Z) : Z :=
  days_from_civil (year + monthIndex / 12) (monthIndex mod 12 + 1) 1 + date - 1.

(** [TimeClip]: a time value outside the range of [Date] is NaN. *)
Definition TimeClip (t : Z) : option Z :=
  if Z.abs t <=? 8640000000000000 then Some t else None.

(** [Date.UTC(year, monthIndex, day)]; years 0 to 99 mean 1900 to 1999. *)
Definition Date_UTC (year monthIndex day : Z) : option Z :=
  let year' := if (0 <=? year) && (year <=? 99) then 1900 + year else year in
  TimeClip (MakeDay year' monthIndex day * msPerDay).

(** [date.setUTCDate(n)] on a valid date. *)
Definition setUTCDate (t n : Z) : option Z :=
  let '(y, m, _) := civil_from_days (Day t) in
  TimeClip (MakeDay y (m - 1) n * msPerDay + t mod msPerDay).

(** The time zone of the machine, as [Date] takes it from the host: the
    offset from UTC (milliseconds, east positive) in force at an instant,
    and the offset [Date] takes for a local time.  For a local time that
    a transition skipped or repeated the latter is the offset in force
    before the transition. *)
Record Zone := {
  offset_at : Z → Z;
  offset_of_local : Z → Z;
}.

(** [LocalTime(t)] and [UTC(t)]. *)
Definition LocalTime (zone : Zone) (t : Z) : Z := t + offset_at zone t.
Definition UTC (zone : Zone) (local : Z) : Z :=
  local - offset_of_local zone local.

(** A zone that has kept one offset, in minutes east of UTC. *)
Definition fixed_offset (minutes : Z) : Zone := {|
  offset_at _ := minutes * 60000;
  offset_of_local _ := minutes * 60000;
|}.

(** The text [y-mm-dd] both pages build from the three getters. *)
Definition format_key (ymd : Z * Z * Z) : string :=
  let '(y, m, d) := ymd in
  (JS.decimal y ++ "-" ++ JS.padStart2 (JS.decimal m) ++ "-"
     ++ JS.padStart2 (JS.decimal d))%string.

(** The same text when the date is invalid and every getter is NaN. *)
Definition invalid_key : string := "NaN-NaN-NaN".

(** *** The civil calendar, in its own words *)

Definition leap_year (y : Z) : bool :=
  ((y mod 4 =? 0) && negb (y mod 100 =? 0)) || (y mod 400 =? 0).

Definition days_in_month (y m : Z) : Z :=
  if m =? 2 then (if leap_year y then 29 else 28)
  else if (m =? 4) || (m =? 6) || (m =? 9) || (m =? 11) then 30
  else 31.

Definition valid_date (y m d : Z) : Prop :=
  1 ≤ m ≤ 12 ∧ 1 ≤ d ≤ days_in_month y m.

(** The date that comes just before [y]-[m]-[d]. *)
Definition day_before (y m d : Z) : Z * Z * Z :=
  if 1 <? d then (y, m, d - 1)
  else if 1 <? m then (y, m - 1, days_in_month y (m - 1))
  else (y - 1, 12, 31).

End Calendar.

(** ** The record of a day *)

Module Data.

Inductive CheckKey := Prep | Homework | Sleep | Leave.

Record DailyChecks := {
  prep : bool;
  homework : bool;
  sleep : bool;
  leave : bool;
}.

(** [isAlarming] is the one field the code does not trust to be present:
    [None] is a record stored without it ([undefined]). *)
Record DailyRecord := {
  date : string;
  checks : DailyChecks;
  carryInSeconds : Z;
  lockedAllocationMinutes : option Z;
  remainingSeconds : option Z;
  isRunning : bool;
  isAlarming : option bool;
  lastStartedAt : option Z;
}.

(** [Boolean(flag)] and the truthiness of a flag that may be absent. *)
Definition truthy_flag (flag : option bool) : bool :=
  match flag with
  | Some b => b
  | None => false
  end.

(** [!n] for a nullable number: [null] and [0] are falsy. *)
Definition falsy (n : option Z) : bool :=
  match n with
  | None => true
  | Some v => v =? 0
  end.

(** [x === null]. *)
Definition is_null {A : Type} (x : option A) : bool :=
  match x with
  | None => true
  | Some _ => false
  end.

(** [Object.values(checks).every(Boolean)]. *)
Definition every_check (c : DailyChecks) : bool :=
  prep c && homework c && sleep c && leave c.

End Data.

Import JS Calendar Data.

(** ** The settings page *)

Module SettingsPage.

Inductive AlarmTone := beep | chime.

Definition tone_text (t : AlarmTone) : string :=
  match t with
  | beep => "beep"
  | chime => "chime"
  end.

(** The settings as this page knows them.  [parentPin] is whatever value
    the loader let through: the annotation [string] is not checked when
    the page runs. *)
Record Settings := {
  carryOverEnabled : bool;
  parentPin : json;
  alarmTone : AlarmTone;
  alarmVolume : number;
  fullCompletionMinutes : number;
  fallbackMinutes : number;
}.

Definition DEFAULT_SETTINGS : Settings := {|
  carryOverEnabled := false;
  parentPin := JStr "1234";
  alarmTone := beep;
  alarmVolume := int 70;
  fullCompletionMinutes := int 45;
  fallbackMinutes := int 15;
|}.

(** The loader in the browser, from the content of the settings slot.
    An absent or empty slot, a text [JSON.parse] rejects and the value
    [null] (reading a property of it throws, and the [catch] answers)
    all give the defaults. *)
Definition loadSettings (raw : slot) : Settings :=
  match raw with
  | Absent => DEFAULT_SETTINGS
  | Unparsable => DEFAULT_SETTINGS
  | Parsed JNull => DEFAULT_SETTINGS
  | Parsed parsed => {|
      carryOverEnabled := Boolean (prop parsed "carryOverEnabled");
      parentPin :=
        match prop parsed "parentPin" with
        | Some pin =>
            if Boolean (Some pin) && test_four_digits pin then pin
            else JStr "1234"
        | None => JStr "1234"
        end;
      alarmTone :=
        match prop parsed "alarmTone" with
        | Some (JStr t) => if String.eqb t "chime" then chime else beep
        | _ => beep
        end;
      alarmVolume :=
        match prop parsed "alarmVolume" with
        | Some (JNum x) =>
            Math_max (int 0) (Math_min (int 100) (Math_round (number_of x)))
        | _ => alarmVolume DEFAULT_SETTINGS
        end;
      fullCompletionMinutes :=
        match prop parsed "fullCompletionMinutes" with
        | Some (JNum x) =>
            Math_max (int 1) (Math_min (int 180) (Math_round (number_of x)))
        | _ => fullCompletionMinutes DEFAULT_SETTINGS
        end;
      fallbackMinutes :=
        match prop parsed "fallbackMinutes" with
        | Some (JNum x) =>
            Math_max (int 1) (Math_min (int 180) (Math_round (number_of x)))
        | _ => fallbackMinutes DEFAULT_SETTINGS
        end;
    |}
  end.

(** [JSON.stringify(settings)]: the six properties of the object. *)
Definition stringify (settings : Settings) : json :=
  JObj [
    ("carryOverEnabled", JBool (carryOverEnabled settings));
    ("parentPin", parentPin settings);
    ("alarmTone", JStr (tone_text (alarmTone settings)));
    ("alarmVolume", stringify_number (alarmVolume settings));
    ("fullCompletionMinutes", stringify_number (fullCompletionMinutes settings));
    ("fallbackMinutes", stringify_number (fallbackMinutes settings))
  ].

(** The new content of the settings slot. *)
Definition saveSettings (settings : Settings) : slot :=
  Parsed (stringify settings).

(** [now] is the time value of [new Date()]; [tz] is the offset of the
    time zone of the machine at that instant, in minutes east of UTC. *)
Definition getTodayKey (now tz : Z) : string :=
  format_key (civil_from_days (Day (now + tz * 60000))).

(** The key is read as a midnight of the zone of the machine
    ([new Date] of a text without an offset), moved one day back with
    [setDate], which works on the local time and converts back, and
    printed with the local getters.  Exact on the keys of valid dates,
    the only ones [getTodayKey] produces; with the offsets of real zones
    their time values are far within the range of [Date], and the
    clipping is left out. *)
Definition getYesterdayKey (zone : Zone) (todayKey : string) : string :=
  match split_dash todayKey "" with
  | [yearText; monthText; dayText] =>
      match Number_of_text yearText, Number_of_text monthText,
            Number_of_text dayText with
      | Some y, Some m, Some d =>
          let t := UTC zone (MakeDay y (m - 1) d * msPerDay) in
          let local := LocalTime zone t in
          let '(year, month, day) := civil_from_days (Day local) in
          let moved :=
            MakeDay year (month - 1) (day - 1) * msPerDay
            + local mod msPerDay in
          let t' := UTC zone moved in
          format_key (civil_from_days (Day (LocalTime zone t')))
      | _, _, _ => invalid_key
      end
  | _ => invalid_key
  end.

Definition getDefaultChecks : DailyChecks := {|
  prep := false;
  homework := false;
  sleep := false;
  leave := false;
|}.

(** The new content of the records slot, from its parsed content, on
    a machine whose zone has kept the offset [tz]. *)
Definition resetTodayRecord (settings : Settings)
    (records : gmap string DailyRecord) (now tz : Z) : gmap string DailyRecord :=
  let todayKey := getTodayKey now tz in
  let yesterdayKey := getYesterdayKey (fixed_offset tz) todayKey in
  let yesterday := records !! yesterdayKey in
  let carryInSeconds :=
    match yesterday with
    | Some y =>
        match remainingSeconds y with
        | Some s =>
            if carryOverEnabled settings && negb (s =? 0) && (0 <? s)
            then s else 0
        | None => 0
        end
    | None => 0
    end in
  <[todayKey := {|
      date := todayKey;
      checks := getDefaultChecks;
      carryInSeconds := carryInSeconds;
      lockedAllocationMinutes := None;
      remainingSeconds := None;
      isRunning := false;
      isAlarming := Some false;
      lastStartedAt := None;
    |}]> records.

(** The editing commands.  Each returns the next state of the page and
    the new content of the settings slot. *)
Definition toggleCarry (settings : Settings) (value : bool) : Settings * slot :=
  let next := {|
    carryOverEnabled := value;
    parentPin := parentPin settings;
    alarmTone := alarmTone settings;
    alarmVolume := alarmVolume settings;
    fullCompletionMinutes := fullCompletionMinutes settings;
    fallbackMinutes := fallbackMinutes settings;
  |} in
  (next, saveSettings next).

Definition updateAlarmTone (settings : Settings) (tone : AlarmTone) : Settings * slot :=
  let next := {|
    carryOverEnabled := carryOverEnabled settings;
    parentPin := parentPin settings;
    alarmTone := tone;
    alarmVolume := alarmVolume settings;
    fullCompletionMinutes := fullCompletionMinutes settings;
    fallbackMinutes := fallbackMinutes settings;
  |} in
  (next, saveSettings next).

Definition updateAlarmVolume (settings : Settings) (volume : number) : Settings * slot :=
  let next := {|
    carryOverEnabled := carryOverEnabled settings;
    parentPin := parentPin settings;
    alarmTone := alarmTone settings;
    alarmVolume := volume;
    fullCompletionMinutes := fullCompletionMinutes settings;
    fallbackMinutes := fallbackMinutes settings;
  |} in
  (next, saveSettings next).

Inductive MinutesKey := KeyFullCompletionMinutes | KeyFallbackMinutes.

Definition updateTimerMinutes (settings : Settings) (key : MinutesKey)
    (value : number) : Settings * slot :=
  let normalized := Math_max (int 1) (Math_min (int 180) (Math_round value)) in
  let next := {|
    carryOverEnabled := carryOverEnabled settings;
    parentPin := parentPin settings;
    alarmTone := alarmTone settings;
    alarmVolume := alarmVolume settings;
    fullCompletionMinutes :=
      match key with
      | KeyFullCompletionMinutes => normalized
      | KeyFallbackMinutes => fullCompletionMinutes settings
      end;
    fallbackMinutes :=
      match key with
      | KeyFallbackMinutes => normalized
      | KeyFullCompletionMinutes => fallbackMinutes settings
      end;
  |} in
  (next, saveSettings next).

(** [updatePin] writes nothing ([None]) when the new PIN is refused. *)
Definition updatePin (settings : Settings) (newPin : string) : option (Settings * slot) :=
  if negb (test_four_digits (JStr newPin)) then None
  else
    let next := {|
      carryOverEnabled := carryOverEnabled settings;
      parentPin := JStr newPin;
      alarmTone := alarmTone settings;
      alarmVolume := alarmVolume settings;
      fullCompletionMinutes := fullCompletionMinutes settings;
      fallbackMinutes := fallbackMinutes settings;
    |} in
    Some (next, saveSettings next).

(** [pinInput === settings.parentPin]: strict equality with a text. *)
Definition unlock (settings : Settings) (pinInput : string) : bool :=
  match parentPin settings with
  | JStr pin => String.eqb pinInput pin
  | _ => false
  end.

End SettingsPage.

(** ** The main page *)

Module Home.

Inductive AlarmTone := beep | chime.

Record Settings := {
  carryOverEnabled : bool;
  parentPin : json;
  alarmTone : AlarmTone;
  alarmVolume : number;
  fullCompletionMinutes : number;
  fallbackMinutes : number;
  fullCompletionMinutesWeekend : number;
  fallbackMinutesWeekend : number;
}.

Definition DEFAULT_SETTINGS : Settings := {|
  carryOverEnabled := false;
  parentPin := JStr "1234";
  alarmTone := beep;
  alarmVolume := int 70;
  fullCompletionMinutes := int 45;
  fallbackMinutes := int 15;
  fullCompletionMinutesWeekend := int 45;
  fallbackMinutesWeekend := int 15;
|}.

Definition DEFAULT_CHECKS : DailyChecks := {|
  prep := false;
  homework := false;
  sleep := false;
  leave := false;
|}.

(** The offset of the zone ["Asia/Tokyo"], minutes east of UTC.  Japan
    has kept UTC+9 without summer time since 1951. *)
Definition TOKYO_OFFSET_MINUTES : Z := 540.

(** The year, month and day parts [Intl.DateTimeFormat] gives for the
    instant [now] in Tokyo, joined as [year-month-day]. *)
Definition toDateKeyInTokyo (now : Z) : string :=
  format_key (civil_from_days (Day (now + TOKYO_OFFSET_MINUTES * 60000))).

(** The time value of the date, [None] for an invalid date. *)
Definition fromDateKeyToUtcDate (dateKey : string) : option Z :=
  match split_dash dateKey "" with
  | yearText :: monthText :: dayText :: _ =>
      match Number_of_text yearText, Number_of_text monthText,
            Number_of_text dayText with
      | Some year, Some month, Some day => Date_UTC year (month - 1) day
      | _, _, _ => None
      end
  | _ => None
  end.

Definition getTodayKey (now : Z) : string := toDateKeyInTokyo now.

Definition getYesterdayKey (todayKey : string) : string :=
  match fromDateKeyToUtcDate todayKey with
  | Some t =>
      let '(_, _, d) := civil_from_days (Day t) in
      match setUTCDate t (d - 1) with
      | Some t' => format_key (civil_from_days (Day t'))
      | None => invalid_key
      end
  | None => invalid_key
  end.

Definition isWeekend (dateKey : string) : bool :=
  match fromDateKeyToUtcDate dateKey with
  | Some t => let day := WeekDay t in (day =? 0) || (day =? 6)
  | None => false
  end.

Definition allocationFromChecks (checks : DailyChecks) (settings : Settings)
    (weekend : bool) : number :=
  if every_check checks then
    if weekend then fullCompletionMinutesWeekend settings
    else fullCompletionMinutes settings
  else
    if weekend then fallbackMinutesWeekend settings
    else fallbackMinutes settings.

Definition loadSettings (raw : slot) : Settings :=
  match raw with
  | Absent => DEFAULT_SETTINGS
  | Unparsable => DEFAULT_SETTINGS
  | Parsed JNull => DEFAULT_SETTINGS
  | Parsed parsed => {|
      carryOverEnabled := Boolean (prop parsed "carryOverEnabled");
      parentPin :=
        match prop parsed "parentPin" with
        | Some pin =>
            if Boolean (Some pin) && test_four_digits pin then pin
            else JStr "1234"
        | None => JStr "1234"
        end;
      alarmTone :=
        match prop parsed "alarmTone" with
        | Some (JStr t) => if String.eqb t "chime" then chime else beep
        | _ => beep
        end;
      alarmVolume :=
        match prop parsed "alarmVolume" with
        | Some (JNum x) =>
            Math_max (int 0) (Math_min (int 100) (Math_round (number_of x)))
        | _ => alarmVolume DEFAULT_SETTINGS
        end;
      fullCompletionMinutes :=
        match prop parsed "fullCompletionMinutes" with
        | Some (JNum x) =>
            Math_max (int 1) (Math_min (int 180) (Math_round (number_of x)))
        | _ => fullCompletionMinutes DEFAULT_SETTINGS
        end;
      fallbackMinutes :=
        match prop parsed "fallbackMinutes" with
        | Some (JNum x) =>
            Math_max (int 1) (Math_min (int 180) (Math_round (number_of x)))
        | _ => fallbackMinutes DEFAULT_SETTINGS
        end;
      fullCompletionMinutesWeekend :=
        match prop parsed "fullCompletionMinutesWeekend" with
        | Some (JNum x) =>
            Math_max (int 1) (Math_min (int 180) (Math_round (number_of x)))
        | _ => fullCompletionMinutesWeekend DEFAULT_SETTINGS
        end;
      fallbackMinutesWeekend :=
        match prop parsed "fallbackMinutesWeekend" with
        | Some (JNum x) =>
            Math_max (int 1) (Math_min (int 180) (Math_round (number_of x)))
        | _ => fallbackMinutesWeekend DEFAULT_SETTINGS
        end;
    |}
  end.

Definition createRecordForDate (dateKey : string)
    (records : gmap string DailyRecord) (settings : Settings) : DailyRecord :=
  match records !! dateKey with
  | Some existing => {|
      date := date existing;
      checks := checks existing;
      carryInSeconds := carryInSeconds existing;
      lockedAllocationMinutes := lockedAllocationMinutes existing;
      remainingSeconds := remainingSeconds existing;
      isRunning := isRunning existing;
      isAlarming := Some (truthy_flag (isAlarming existing));
      lastStartedAt := lastStartedAt existing;
    |}
  | None =>
      let yesterdayKey := getYesterdayKey dateKey in
      let yesterday := records !! yesterdayKey in
      let carryInSeconds :=
        match yesterday with
        | Some y =>
            match remainingSeconds y with
            | Some s =>
                if carryOverEnabled settings && negb (s =? 0) && (0 <? s)
                then s else 0
            | None => 0
            end
        | None => 0
        end in
      {|
        date := dateKey;
        checks := DEFAULT_CHECKS;
        carryInSeconds := carryInSeconds;
        lockedAllocationMinutes := None;
        remainingSeconds := None;
        isRunning := false;
        isAlarming := Some false;
        lastStartedAt := None;
      |}
  end.

(** The state update of the one-second countdown interval, with [now]
    for [Date.now()]. *)
Definition tick (prev : DailyRecord) (now : Z) : DailyRecord :=
  if negb (isRunning prev) || falsy (lastStartedAt prev)
     || is_null (remainingSeconds prev)
  then prev
  else
    match lastStartedAt prev, remainingSeconds prev with
    | Some started, Some remaining =>
        let elapsed := (now - started) / 1000 in
        if elapsed <=? 0 then prev
        else
          let nextRemaining := Z.max 0 (remaining - elapsed) in
          {|
            date := date prev;
            checks := checks prev;
            carryInSeconds := carryInSeconds prev;
            lockedAllocationMinutes := lockedAllocationMinutes prev;
            remainingSeconds := Some nextRemaining;
            isRunning := 0 <? nextRemaining;
            isAlarming :=
              if nextRemaining =? 0 then Some true else isAlarming prev;
            lastStartedAt :=
              if 0 <? nextRemaining then Some (started + elapsed * 1000)
              else None;
          |}
    | _, _ => prev
    end.

(** The state update of the thirty-second interval: [todayKey] is
    [getTodayKey()] at that moment, [records] the parsed records slot.
    Returns the record of the page and the new content of the slot. *)
Definition rollover (prev : DailyRecord) (todayKey : string)
    (records : gmap string DailyRecord) (latestSettings : Settings)
    : DailyRecord * gmap string DailyRecord :=
  if String.eqb (date prev) todayKey then (prev, records)
  else
    let records1 := <[date prev := prev]> records in
    let next := createRecordForDate todayKey records1 latestSettings in
    (next, <[todayKey := next]> records1).

(** [persist] stores the record under its date. *)
Definition persist (next : DailyRecord) (records : gmap string DailyRecord)
    : gmap string DailyRecord :=
  <[date next := next]> records.

Definition toggle (key : CheckKey) (c : DailyChecks) : DailyChecks :=
  match key with
  | Prep => {| prep := negb (prep c); homework := homework c;
               sleep := sleep c; leave := leave c |}
  | Homework => {| prep := prep c; homework := negb (homework c);
                   sleep := sleep c; leave := leave c |}
  | Sleep => {| prep := prep c; homework := homework c;
                sleep := negb (sleep c); leave := leave c |}
  | Leave => {| prep := prep c; homework := homework c;
                sleep := sleep c; leave := negb (leave c) |}
  end.

(** The commands return the record the page holds afterwards; when a
    command returns early that is the record it was given. *)
Definition toggleCheck (today : DailyRecord) (key : CheckKey) : DailyRecord :=
  if isRunning today then today
  else {|
    date := date today;
    checks := toggle key (checks today);
    carryInSeconds := carryInSeconds today;
    lockedAllocationMinutes := lockedAllocationMinutes today;
    remainingSeconds := remainingSeconds today;
    isRunning := isRunning today;
    isAlarming := isAlarming today;
    lastStartedAt := lastStartedAt today;
  |}.

(** [currentAllocation] is the value the page computed when it was last
    rendered; the first early return opens the confirmation dialog. *)
Definition startTimer (today : DailyRecord) (currentAllocation : Z)
    (skipConfirm : bool) (now : Z) : DailyRecord :=
  let allChecked := every_check (checks today) in
  if negb skipConfirm && negb allChecked then today
  else
    let allocation :=
      match lockedAllocationMinutes today with
      | Some locked => locked
      | None => currentAllocation
      end in
    let baseSeconds :=
      match remainingSeconds today with
      | None => allocation * 60 + carryInSeconds today
      | Some remaining => remaining
      end in
    if baseSeconds <=? 0 then today
    else {|
      date := date today;
      checks := checks today;
      carryInSeconds := carryInSeconds today;
      lockedAllocationMinutes := Some allocation;
      remainingSeconds := Some baseSeconds;
      isRunning := true;
      isAlarming := Some false;
      lastStartedAt := Some now;
    |}.

Definition pauseTimer (today : DailyRecord) (now : Z) : DailyRecord :=
  if negb (isRunning today) || is_null (remainingSeconds today)
     || falsy (lastStartedAt today)
  then today
  else
    match remainingSeconds today, lastStartedAt today with
    | Some remaining, Some started =>
        let elapsed := (now - started) / 1000 in
        let nextRemaining := Z.max 0 (remaining - elapsed) in
        {|
          date := date today;
          checks := checks today;
          carryInSeconds := carryInSeconds today;
          lockedAllocationMinutes := lockedAllocationMinutes today;
          remainingSeconds := Some nextRemaining;
          isRunning := false;
          isAlarming := Some false;
          lastStartedAt := None;
        |}
    | _, _ => today
    end.

Definition finishTimer (today : DailyRecord) (currentAllocation : Z) : DailyRecord := {|
  date := date today;
  checks := checks today;
  carryInSeconds := carryInSeconds today;
  lockedAllocationMinutes :=
    Some match lockedAllocationMinutes today with
         | Some locked => locked
         | None => currentAllocation
         end;
  remainingSeconds := Some 0;
  isRunning := false;
  isAlarming := Some false;
  lastStartedAt := None;
|}.

(** What the page shows and offers: the minutes granted, the seconds
    on the clock (the name [remainingSeconds] is taken by the field) and
    whether the start button is enabled. *)
Definition grantedMinutes (today : DailyRecord) (currentAllocation : Z) : Z :=
  match lockedAllocationMinutes today with
  | Some locked => locked
  | None => currentAllocation
  end.

Definition initialSeconds (today : DailyRecord) (currentAllocation : Z) : Z :=
  grantedMinutes today currentAllocation * 60 + carryInSeconds today.

Definition shownSeconds (today : DailyRecord) (currentAllocation : Z) : Z :=
  match remainingSeconds today with
  | Some remaining => remaining
  | None => initialSeconds today currentAllocation
  end.

Definition canStart (today : DailyRecord) (currentAllocation : Z) : bool :=
  0 <? shownSeconds today currentAllocation.

(** The clock the page shows, minutes and seconds. *)
Definition formatClock (seconds : Z) : string :=
  let safe := Z.max 0 seconds in
  let min := safe / 60 in
  let sec := safe mod 60 in
  (padStart2 (decimal min) ++ ":" ++ padStart2 (decimal sec))%string.

(** [checks[key]]. *)
Definition check (c : DailyChecks) (key : CheckKey) : bool :=
  match key with
  | Prep => prep c
  | Homework => homework c
  | Sleep => sleep c
  | Leave => leave c
  end.

(** Sequences of commands on the record of the page. *)
Inductive command :=
| Start (currentAllocation : Z) (skipConfirm : bool) (now : Z)
| Tick (now : Z)
| Pause (now : Z)
| Finish (currentAllocation : Z)
| ToggleCheck (key : CheckKey).

Definition step (today : DailyRecord) (c : command) : DailyRecord :=
  match c with
  | Start currentAllocation skipConfirm now =>
      startTimer today currentAllocation skipConfirm now
  | Tick now => tick today now
  | Pause now => pauseTimer today now
  | Finish currentAllocation => finishTimer today currentAllocation
  | ToggleCheck key => toggleCheck today key
  end.

Definition run (today : DailyRecord) (cs : list command) : DailyRecord :=
  fold_left step cs today.

(** *** The page around the record

    The two pieces of state the commands touch: the record and the flag
    of the confirmation dialog ([useState(false)]). *)
Record Page := {
  today : DailyRecord;
  showStartConfirm : bool;
}.

(** What [startTimer] does to the flag of the dialog: the first early
    return opens it, the return on nothing to count down leaves it, a
    start closes it. *)
Definition startTimer_dialog (today : DailyRecord) (currentAllocation : Z)
    (skipConfirm : bool) (shown : bool) : bool :=
  let allChecked := every_check (checks today) in
  if negb skipConfirm && negb allChecked then true
  else
    let allocation :=
      match lockedAllocationMinutes today with
      | Some locked => locked
      | None => currentAllocation
      end in
    let baseSeconds :=
      match remainingSeconds today with
      | None => allocation * 60 + carryInSeconds today
      | Some remaining => remaining
      end in
    if baseSeconds <=? 0 then shown else false.

(** What can happen on the page: a press on one of its controls, or one
    of its two intervals firing. *)
Inductive event :=
| PressStart (currentAllocation now : Z)
| PressConfirm (currentAllocation now : Z)
| PressCancel
| PressPause (now : Z)
| PressFinish (currentAllocation : Z)
| PressCheck (key : CheckKey)
| CountdownInterval (now : Z)
| DateInterval (todayKey : string) (records : gmap string DailyRecord)
    (latestSettings : Settings).

(** The page after an event.  A control answers only where the page
    renders it enabled:
    - the start button stands in for the pause button while the record
      runs, and is disabled unless [canStart]; it calls [startTimer()];
    - the two buttons of the dialog are there while the flag is set; the
      second calls [startTimer(true)];
    - the pause button is there while the record runs;
    - the finish button of the card is disabled when the clock shows 0,
      the one of the full-screen view is there while the record runs or
      alarms;
    - the checklist buttons are disabled while the record runs.
    The interval of the date closes the dialog when it changes the
    record. *)
Definition handle (page : Page) (e : event) : Page :=
  let record := today page in
  match e with
  | PressStart currentAllocation now =>
      if isRunning record || negb (canStart record currentAllocation)
      then page
      else {|
        today := startTimer record currentAllocation false now;
        showStartConfirm :=
          startTimer_dialog record currentAllocation false
            (showStartConfirm page);
      |}
  | PressConfirm currentAllocation now =>
      if showStartConfirm page then {|
        today := startTimer record currentAllocation true now;
        showStartConfirm :=
          startTimer_dialog record currentAllocation true
            (showStartConfirm page);
      |}
      else page
  | PressCancel =>
      if showStartConfirm page
      then {| today := record; showStartConfirm := false |}
      else page
  | PressPause now =>
      if isRunning record
      then {| today := pauseTimer record now;
              showStartConfirm := showStartConfirm page |}
      else page
  | PressFinish currentAllocation =>
      if negb (shownSeconds record currentAllocation =? 0)
         || isRunning record || truthy_flag (isAlarming record)
      then {| today := finishTimer record currentAllocation;
              showStartConfirm := showStartConfirm page |}
      else page
  | PressCheck key =>
      if isRunning record then page
      else {| today := toggleCheck record key;
              showStartConfirm := showStartConfirm page |}
  | CountdownInterval now =>
      {| today := tick record now;
         showStartConfirm := showStartConfirm page |}
  | DateInterval todayKey records latestSettings =>
      {| today := (rollover record todayKey records latestSettings).1;
         showStartConfirm :=
           if String.eqb (date record) todayKey then showStartConfirm page
           else false |}
  end.

(** A session: the events of the page, one after the other. *)
Definition session (page : Page) (es : list event) : Page :=
  fold_left handle es page.

End Home.

(** ** The invariants of a record *)

Definition invariant (r : DailyRecord) : Prop :=
  (isRunning r = true → lastStartedAt r ≠ None ∧ remainingSeconds r ≠ None)
  ∧ (isAlarming r = Some true → isRunning r = false)
  ∧ (remainingSeconds r = Some 0 → isRunning r = false)
  ∧ (∀ s : Z, remainingSeconds r = Some s → 0 ≤ s).

(** ** The ranges of the settings *)

(** [x] is an integer between [lo] and [hi]. *)
Definition in_range (lo hi : Z) (x : number) : Prop :=
  ∃ n : Z, x = int n ∧ lo ≤ n ≤ hi.

(** The ranges the main page relies on: minutes from 1 to 180, volume
    from 0 to 100. *)
Definition settings_in_range (s : Home.Settings) : Prop :=
  in_range 0 100 (Home.alarmVolume s)
  ∧ in_range 1 180 (Home.fullCompletionMinutes s)
  ∧ in_range 1 180 (Home.fallbackMinutes s)
  ∧ in_range 1 180 (Home.fullCompletionMinutesWeekend s)
  ∧ in_range 1 180 (Home.fallbackMinutesWeekend s).

(** The whole number nearest to [x] (a half goes up) brought into the
    range from [lo] to [hi]: an infinity goes to the bound on its side,
    and NaN has none. *)
Definition nearest_within (lo hi : Z) (x : number) : option Z :=
  match x with
  | Fin q => Some (Z.max lo (Z.min hi (Qfloor (q + (1 # 2)))))
  | PosInf => Some hi
  | NegInf => Some lo
  | NaN => None
  end.

(** How a numeric setting is to be read from a stored value: a stored
    number as the nearest whole number within the range, anything else
    (nothing, [null], a text, a boolean, an array, an object) as the
    default. *)
Definition loads_as (lo hi : Z) (default : number) (stored : value)
    (loaded : number) : Prop :=
  match stored with
  | Some (JNum x) =>
      ∃ n : Z, nearest_within lo hi (number_of x) = Some n ∧ loaded = int n
  | _ => loaded = default
  end.

(** A PIN is a text of four digits. *)
Definition is_pin (v : json) : Prop :=
  ∃ s : string, v = JStr s ∧ String.length s = 4%nat ∧ all_digits s = true.

(** ** Instants and settings the further properties are about *)

(** A local time from the last day of 1969 to the end of the year 9999,
    in milliseconds: the dates whose keys have a four-digit year. *)
Definition supported_time (t : Z) : Prop :=
  - 86400000 ≤ t < 253402300800000.

(** Settings of the settings page that a load returns: whole numbers
    within the ranges and a PIN that passes the test of the loader. *)
Definition well_formed (s : SettingsPage.Settings) : Prop :=
  in_range 0 100 (SettingsPage.alarmVolume s)
  ∧ in_range 1 180 (SettingsPage.fullCompletionMinutes s)
  ∧ in_range 1 180 (SettingsPage.fallbackMinutes s)
  ∧ Boolean (Some (SettingsPage.parentPin s))
      && test_four_digits (SettingsPage.parentPin s) = true.

(** The dialog is open only over a record that does not run. *)
Definition dialog_over_idle (page : Home.Page) : Prop :=
  Home.showStartConfirm page = true → isRunning (Home.today page) = false.

(** ** Records of the worked cases *)

(** The record of a day before any command. *)
Definition fresh_record (carry : Z) : DailyRecord := {|
  date := "2026-02-14";
  checks := Home.DEFAULT_CHECKS;
  carryInSeconds := carry;
  lockedAllocationMinutes := None;
  remainingSeconds := None;
  isRunning := false;
  isAlarming := Some false;
  lastStartedAt := None;
|}.

(** The record of the day before, paused with [remaining] seconds
    left (or never started). *)
Definition yesterday_record (remaining : option Z) : DailyRecord := {|
  date := "2026-02-13";
  checks := Home.DEFAULT_CHECKS;
  carryInSeconds := 0;
  lockedAllocationMinutes := Some 15;
  remainingSeconds := remaining;
  isRunning := false;
  isAlarming := Some false;
  lastStartedAt := None;
|}.

(** A record of the 14th as an earlier version of the page stored it,
    without the alarming flag. *)
Definition unflagged_record : DailyRecord := {|
  date := "2026-02-14";
  checks := Home.DEFAULT_CHECKS;
  carryInSeconds := 0;
  lockedAllocationMinutes := Some 15;
  remainingSeconds := Some 300;
  isRunning := false;
  isAlarming := None;
  lastStartedAt := None;
|}.

Definition carry_settings (enabled : bool) : Home.Settings := {|
  Home.carryOverEnabled := enabled;
  Home.parentPin := JStr "1234";
  Home.alarmTone := Home.beep;
  Home.alarmVolume := int 70;
  Home.fullCompletionMinutes := int 45;
  Home.fallbackMinutes := int 15;
  Home.fullCompletionMinutesWeekend := int 60;
  Home.fallbackMinutesWeekend := int 20;
|}.

(** A running record for the worked cases: all four items checked, 45
    minutes locked, [remaining] seconds left, anchored at [anchor]. *)
Definition running_record (remaining anchor : Z) : DailyRecord := {|
  date := "2026-02-14";
  checks := {| prep := true; homework := true; sleep := true; leave := true |};
  carryInSeconds := 0;
  lockedAllocationMinutes := Some 45;
  remainingSeconds := Some remaining;
  isRunning := true;
  isAlarming := Some false;
  lastStartedAt := Some anchor;
|}.

(** The zone Pacific/Apia around the end of 2011: ten hours behind UTC
    until the end of 29 December (2011-12-30T10:00:00Z), fourteen hours
    ahead from then on; the 30th was skipped there. *)
Definition apia_2011 : Zone := {|
  offset_at t := if t <? 1325239200000 then -36000000 else 50400000;
  offset_of_local local :=
    if local <? 1325289600000 then -36000000 else 50400000;
|}.

(** The instant 2026-02-14T16:00:00Z: the afternoon of the 14th in
    Greenwich, one o'clock in the morning of the 15th in Tokyo. *)
Definition sample_instant : Z := 1771084800000.

(** A settings record as the main page reads it, with weekend minutes
    that are not the defaults. *)
Definition stored_settings : slot :=
  Parsed (JObj [
    ("carryOverEnabled", JBool false);
    ("parentPin", JStr "1234");
    ("alarmTone", JStr "beep");
    ("alarmVolume", JNum (JFin (70 # 1)));
    ("fullCompletionMinutes", JNum (JFin (45 # 1)));
    ("fallbackMinutes", JNum (JFin (15 # 1)));
    ("fullCompletionMinutesWeekend", JNum (JFin (90 # 1)));
    ("fallbackMinutesWeekend", JNum (JFin (30 # 1)))
  ]).

(** A settings record whose PIN is the number 1234, not the text. *)
Definition numeric_pin_settings : slot :=
  Parsed (JObj [("parentPin", JNum (JFin (1234 # 1)))]).

(** A settings record with every number out of range or not whole. *)
Definition wild_settings : slot :=
  Parsed (JObj [
    ("alarmVolume", JNum (JFin (-7 # 2)));
    ("fullCompletionMinutes", JNum (JInf false));
    ("fallbackMinutes", JNum (JInf true));
    ("fullCompletionMinutesWeekend", JNum (JFin (181 # 2)));
    ("fallbackMinutesWeekend", JStr "20")
  ]).

(** ** Worked values of the definitions *)

Example decimal_samples :
  decimal 2026 = "2026" ∧ decimal 0 = "0" ∧ decimal 10 = "10"
  ∧ decimal (-15) = "-15".
Proof. repeat split; reflexivity. Qed.

Example key_samples :
  format_key (2026, 2, 4) = "2026-02-04"
  ∧ split_dash "2026-02-14" "" = ["2026"; "02"; "14"]
  ∧ Number_of_text "02" = Some 2
  ∧ Number_of_text "Feb" = None.
Proof. repeat split; reflexivity. Qed.

Example civil_samples :
  civil_from_days 0 = (1970, 1, 1)
  ∧ civil_from_days (-1) = (1969, 12, 31)
  ∧ days_from_civil 2026 2 14 = 20498
  ∧ civil_from_days 20498 = (2026, 2, 14)
  ∧ WeekDay (20498 * msPerDay) = 6.
Proof. repeat split; reflexivity. Qed.

(** The day before, across the end of a month, a leap day, a century
    that is no leap year, and the new year. *)
Example getYesterdayKey_samples :
  Home.getYesterdayKey "2026-02-15" = "2026-02-14"
  ∧ Home.getYesterdayKey "2026-03-01" = "2026-02-28"
  ∧ Home.getYesterdayKey "2024-03-01" = "2024-02-29"
  ∧ Home.getYesterdayKey "2100-03-01" = "2100-02-28"
  ∧ Home.getYesterdayKey "2026-01-01" = "2025-12-31"
  ∧ Home.getYesterdayKey "someday" = "NaN-NaN-NaN".
Proof. repeat split; reflexivity. Qed.

Example getYesterdayKey_settings_samples :
  SettingsPage.getYesterdayKey (fixed_offset 540) "2026-03-01" = "2026-02-28"
  ∧ SettingsPage.getYesterdayKey (fixed_offset (-300)) "2026-01-01"
    = "2025-12-31".
Proof. repeat split; reflexivity. Qed.

(** Where the zone skipped the day before, [setDate] lands on the
    skipped midnight and the conversion back gives the day it came
    from: the settings page takes the 31st for its own yesterday, the
    main page (which works in UTC) the 30th. *)
Example getYesterdayKey_skipped_day :
  SettingsPage.getYesterdayKey apia_2011 "2011-12-31" = "2011-12-31"
  ∧ SettingsPage.getYesterdayKey apia_2011 "2012-01-01" = "2011-12-31"
  ∧ SettingsPage.getYesterdayKey apia_2011 "2011-12-29" = "2011-12-28"
  ∧ Home.getYesterdayKey "2011-12-31" = "2011-12-30".
Proof. repeat split; reflexivity. Qed.

Example isWeekend_samples :
  Home.isWeekend "2026-02-14" = true
  ∧ Home.isWeekend "2026-02-15" = true
  ∧ Home.isWeekend "2026-02-16" = false.
Proof. repeat split; reflexivity. Qed.

Example test_four_digits_samples :
  test_four_digits (JStr "1234") = true
  ∧ test_four_digits (JStr "12345") = false
  ∧ test_four_digits (JStr "12a4") = false
  ∧ test_four_digits (JNum (JFin (1234 # 1))) = true
  ∧ test_four_digits (JNum (JFin (2469 # 2))) = false
  ∧ test_four_digits (JArr [JStr "1234"]) = true
  ∧ test_four_digits (JArr [JStr "12"; JStr "34"]) = false.
Proof. repeat split; reflexivity. Qed.

(** ** The countdown *)

Section Countdown.

Import Home.

(** A running record whose anchor and remaining time pass the guard
    common to [tick] and [pauseTimer]. *)
Lemma guard_passes (r : DailyRecord) (A R : Z) :
  isRunning r = true → lastStartedAt r = Some A → A ≠ 0 →
  remainingSeconds r = Some R →
  negb (isRunning r) || falsy (lastStartedAt r)
    || is_null (remainingSeconds r) = false
  ∧ negb (isRunning r) || is_null (remainingSeconds r)
    || falsy (lastStartedAt r) = false.
Proof.
  intros -> -> HA ->. simpl.
  destruct (Z.eqb_spec A 0); [contradiction | auto].
Qed.

(** The number of whole seconds between the anchor and [now]. *)
Lemma elapsed_whole_seconds (A e r : Z) :
  0 ≤ r < 1000 → (A + e * 1000 + r - A) / 1000 = e.
Proof.
  intros Hr. replace (A + e * 1000 + r - A) with (r + e * 1000) by lia.
  rewrite Z.div_add by lia. rewrite Z.div_small by lia. lia.
Qed.

(** One tick that does not exhaust the countdown. *)
Lemma tick_partial (prev : DailyRecord) (R A e now : Z) :
  isRunning prev = true → remainingSeconds prev = Some R →
  lastStartedAt prev = Some A → A ≠ 0 →
  (now - A) / 1000 = e → 0 < e < R →
  tick prev now = {|
    date := date prev;
    checks := checks prev;
    carryInSeconds := carryInSeconds prev;
    lockedAllocationMinutes := lockedAllocationMinutes prev;
    remainingSeconds := Some (R - e);
    isRunning := true;
    isAlarming := isAlarming prev;
    lastStartedAt := Some (A + e * 1000);
  |}.
Proof.
  intros Hrun HR HA HA0 He Hlt.
  unfold tick.
  destruct (guard_passes prev A R Hrun HA HA0 HR) as [-> _].
  rewrite HA, HR, He.
  destruct (Z.leb_spec e 0); [lia |].
  replace (Z.max 0 (R - e)) with (R - e) by lia.
  destruct (Z.ltb_spec 0 (R - e)); [| lia].
  destruct (Z.eqb_spec (R - e) 0); [lia | reflexivity].
Qed.

(** A tick or a pause that exhausts the countdown. *)
Lemma tick_expires (prev : DailyRecord) (R A e now : Z) :
  isRunning prev = true → remainingSeconds prev = Some R →
  lastStartedAt prev = Some A → A ≠ 0 →
  (now - A) / 1000 = e → 0 < e → R ≤ e →
  tick prev now = {|
    date := date prev;
    checks := checks prev;
    carryInSeconds := carryInSeconds prev;
    lockedAllocationMinutes := lockedAllocationMinutes prev;
    remainingSeconds := Some 0;
    isRunning := false;
    isAlarming := Some true;
    lastStartedAt := None;
  |}.
Proof.
  intros Hrun HR HA HA0 He Hpos Hle.
  unfold tick.
  destruct (guard_passes prev A R Hrun HA HA0 HR) as [-> _].
  rewrite HA, HR, He.
  destruct (Z.leb_spec e 0); [lia |].
  replace (Z.max 0 (R - e)) with 0 by lia.
  reflexivity.
Qed.

Lemma pauseTimer_running (today : DailyRecord) (R A now : Z) :
  isRunning today = true → remainingSeconds today = Some R →
  lastStartedAt today = Some A → A ≠ 0 →
  pauseTimer today now = {|
    date := date today;
    checks := checks today;
    carryInSeconds := carryInSeconds today;
    lockedAllocationMinutes := lockedAllocationMinutes today;
    remainingSeconds := Some (Z.max 0 (R - (now - A) / 1000));
    isRunning := false;
    isAlarming := Some false;
    lastStartedAt := None;
  |}.
Proof.
  intros Hrun HR HA HA0.
  unfold pauseTimer.
  destruct (guard_passes today A R Hrun HA HA0 HR) as [_ ->].
  rewrite HA, HR. reflexivity.
Qed.

(** [pauseTimer] either returns its argument or clears the alarm. *)
Lemma pauseTimer_cases (today : DailyRecord) (now : Z) :
  pauseTimer today now = today
  ∨ isAlarming (pauseTimer today now) = Some false.
Proof.
  unfold pauseTimer.
  destruct (negb (isRunning today) || is_null (remainingSeconds today)
            || falsy (lastStartedAt today)); [by left |].
  destruct (remainingSeconds today), (lastStartedAt today); auto.
Qed.

End Countdown.

(** C1, as amended.  For a running record with remaining seconds [R] and
    an anchor [A] that is not zero, a tick at [A + e] seconds (and any
    fraction [r] of a second more), with [0 < e < R], leaves [R - e]
    seconds, keeps the record running and moves the anchor to [A + e]
    seconds, not to the time of the tick.  A second tick [e'] seconds
    (and a fraction) after the new anchor, that anchor not being zero
    either, leaves [R - (e + e')]: with [e = 7] and [e' = 3], [R - 10]. *)
Theorem tick_conserves_elapsed_time
    (prev : DailyRecord) (R A e r e' r' : Z) :
  isRunning prev = true → remainingSeconds prev = Some R →
  lastStartedAt prev = Some A → A ≠ 0 →
  0 < e < R → 0 ≤ r < 1000 →
  let next := Home.tick prev (A + e * 1000 + r) in
  (remainingSeconds next = Some (R - e)
   ∧ isRunning next = true
   ∧ lastStartedAt next = Some (A + e * 1000))
  ∧ (A + e * 1000 ≠ 0 → 0 < e' → e + e' < R → 0 ≤ r' < 1000 →
     let next' := Home.tick next (A + e * 1000 + e' * 1000 + r') in
     remainingSeconds next' = Some (R - (e + e'))
     ∧ isRunning next' = true
     ∧ lastStartedAt next' = Some (A + (e + e') * 1000)).
Proof.
  intros Hrun HR HA HA0 He Hr next.
  assert (Hnext : next = _) by
    (apply (tick_partial prev R A e); eauto using elapsed_whole_seconds).
  split; [rewrite Hnext; auto |].
  intros HA1 He' Hsum Hr' next'.
  pose proof (tick_partial next (R - e) (A + e * 1000) e'
                (A + e * 1000 + e' * 1000 + r')) as Hnext'.
  fold next' in Hnext'. rewrite Hnext'.
  - simpl. repeat split; f_equal; lia.
  - rewrite Hnext; reflexivity.
  - rewrite Hnext; reflexivity.
  - rewrite Hnext; reflexivity.
  - exact HA1.
  - apply elapsed_whole_seconds; lia.
  - lia.
Qed.

(** The two ticks of the claim, from 2700 seconds: 7 seconds after the
    anchor, then 3 seconds after the new one. *)
Lemma tick_conserves_elapsed_time_witness :
  let prev := running_record 2700 1771027200000 in
  let next := Home.tick prev (1771027200000 + 7 * 1000 + 0) in
  (remainingSeconds next = Some (2700 - 7)
   ∧ isRunning next = true
   ∧ lastStartedAt next = Some (1771027200000 + 7 * 1000))
  ∧ (let next' := Home.tick next (1771027200000 + 7 * 1000 + 3 * 1000 + 250) in
     remainingSeconds next' = Some (2700 - (7 + 3))
     ∧ isRunning next' = true
     ∧ lastStartedAt next' = Some (1771027200000 + (7 + 3) * 1000)).
Proof.
  pose proof (tick_conserves_elapsed_time (running_record 2700 1771027200000)
                2700 1771027200000 7 0 3 250
                eq_refl eq_refl eq_refl ltac:(lia) ltac:(lia) ltac:(lia))
    as [H1 H2].
  split; [exact H1 |].
  apply H2; lia.
Defined.

(** C1 as stated fails for the anchor 0: [tick] reads it as a missing
    anchor and returns the record as it is. *)
Lemma tick_zero_anchor_counterexample :
  let prev := running_record 100 0 in
  isRunning prev = true ∧ remainingSeconds prev = Some 100
  ∧ lastStartedAt prev = Some 0
  ∧ Home.tick prev (0 + 7 * 1000) = prev
  ∧ remainingSeconds (Home.tick prev (0 + 7 * 1000)) ≠ Some (100 - 7).
Proof. repeat split; discriminate. Qed.

(** C3, as amended.  For a running record with 5 seconds remaining and
    an anchor that is not zero, a tick whose elapsed time is 5 seconds
    leaves 0 seconds, stops the record, clears the anchor and raises the
    alarm; a pause whose elapsed time is 5 seconds leaves 0 seconds,
    stops the record, clears the anchor and leaves the alarm off.  A
    pause never raises the alarm: a record that alarms after a pause is
    the record the pause was given. *)
Theorem expiry_sets_alarm_pause_does_not
    (today : DailyRecord) (A now : Z) :
  isRunning today = true → remainingSeconds today = Some 5 →
  lastStartedAt today = Some A → A ≠ 0 →
  (now - A) / 1000 = 5 →
  (let next := Home.tick today now in
   remainingSeconds next = Some 0 ∧ isRunning next = false
   ∧ lastStartedAt next = None ∧ isAlarming next = Some true)
  ∧ (let next := Home.pauseTimer today now in
     remainingSeconds next = Some 0 ∧ isRunning next = false
     ∧ lastStartedAt next = None ∧ isAlarming next = Some false)
  ∧ (∀ (r : DailyRecord) (t : Z),
       isAlarming (Home.pauseTimer r t) = Some true →
       Home.pauseTimer r t = r).
Proof.
  intros Hrun HR HA HA0 He. split; [| split].
  - rewrite (tick_expires today 5 A 5 now) by (auto; lia). auto.
  - rewrite (pauseTimer_running today 5 A now) by auto.
    rewrite He. auto.
  - intros r t Halarm.
    destruct (pauseTimer_cases r t) as [Hsame | Hoff]; [exact Hsame |].
    congruence.
Qed.

Lemma expiry_sets_alarm_pause_does_not_witness :
  let today := running_record 5 1771027200000 in
  let now := 1771027205000 in
  (let next := Home.tick today now in
   remainingSeconds next = Some 0 ∧ isRunning next = false
   ∧ lastStartedAt next = None ∧ isAlarming next = Some true)
  ∧ (let next := Home.pauseTimer today now in
     remainingSeconds next = Some 0 ∧ isRunning next = false
     ∧ lastStartedAt next = None ∧ isAlarming next = Some false)
  ∧ (∀ (r : DailyRecord) (t : Z),
       isAlarming (Home.pauseTimer r t) = Some true →
       Home.pauseTimer r t = r).
Proof.
  apply (expiry_sets_alarm_pause_does_not (running_record 5 1771027200000)
           1771027200000 1771027205000);
    [reflexivity | reflexivity | reflexivity | lia | reflexivity].
Defined.

(** C3 as stated fails for the anchor 0: five seconds after it, neither
    the tick nor the pause touches the record, which stays running with
    its 5 seconds. *)
Lemma expiry_zero_anchor_counterexample :
  let today := running_record 5 0 in
  isRunning today = true ∧ remainingSeconds today = Some 5
  ∧ (5000 - 0) / 1000 = 5
  ∧ remainingSeconds (Home.tick today 5000) ≠ Some 0
  ∧ isRunning (Home.tick today 5000) ≠ false
  ∧ remainingSeconds (Home.pauseTimer today 5000) ≠ Some 0
  ∧ isRunning (Home.pauseTimer today 5000) ≠ false.
Proof. repeat split; discriminate. Qed.

(** ** Invariants *)

Section Invariants.

Import Home.

(** Closes the invariants of a record whose fields are explicit. *)
Ltac close_invariant :=
  unfold invariant; simpl; repeat split; intros; repeat split;
  try congruence; try (simplify_eq; lia).

Lemma startTimer_invariant (today : DailyRecord) (alloc : Z) (skip : bool) (now : Z) :
  invariant today → invariant (startTimer today alloc skip now).
Proof.
  intros Hinv. unfold startTimer.
  destruct (negb skip && negb (every_check (checks today))); [exact Hinv |].
  match goal with |- context [?b <=? 0] => destruct (Z.leb_spec b 0) as [|Hpos] end;
    [exact Hinv |].
  close_invariant.
Qed.

Lemma tick_invariant (prev : DailyRecord) (now : Z) :
  invariant prev → invariant (tick prev now).
Proof.
  intros Hinv. unfold tick.
  destruct (negb (isRunning prev) || falsy (lastStartedAt prev)
            || is_null (remainingSeconds prev)) eqn:Hguard; [exact Hinv |].
  destruct (lastStartedAt prev) as [started|] eqn:HA; [| exact Hinv].
  destruct (remainingSeconds prev) as [remaining|] eqn:HR; [| exact Hinv].
  destruct (Z.leb_spec ((now - started) / 1000) 0); [exact Hinv |].
  set (n := Z.max 0 (remaining - (now - started) / 1000)).
  assert (Hrun : isRunning prev = true) by
    (destruct (isRunning prev); [reflexivity | discriminate]).
  destruct Hinv as (_ & Halarm & _ & _).
  assert (Hn : 0 ≤ n) by lia. clearbody n.
  unfold invariant; simpl.
  destruct (Z.ltb_spec 0 n), (Z.eqb_spec n 0); try lia;
    repeat split; intros; repeat split;
    try congruence; try (simplify_eq; lia).
  match goal with H : isAlarming prev = Some true |- _ =>
    apply Halarm in H; congruence end.
Qed.

Lemma pauseTimer_invariant (today : DailyRecord) (now : Z) :
  invariant today → invariant (pauseTimer today now).
Proof.
  intros Hinv. unfold pauseTimer.
  destruct (negb (isRunning today) || is_null (remainingSeconds today)
            || falsy (lastStartedAt today)); [exact Hinv |].
  destruct (remainingSeconds today); [| exact Hinv].
  destruct (lastStartedAt today); [| exact Hinv].
  close_invariant.
Qed.

Lemma finishTimer_invariant (today : DailyRecord) (alloc : Z) :
  invariant (finishTimer today alloc).
Proof. close_invariant. Qed.

Lemma toggleCheck_invariant (today : DailyRecord) (key : CheckKey) :
  invariant today → invariant (toggleCheck today key).
Proof.
  intros Hinv. unfold toggleCheck.
  destruct (isRunning today) eqn:Hrun; [exact Hinv |].
  destruct Hinv as (H1 & H2 & H3 & H4).
  unfold invariant; simpl. repeat split; auto; congruence.
Qed.

Lemma step_invariant (today : DailyRecord) (c : command) :
  invariant today → invariant (step today c).
Proof.
  destruct c; simpl;
    auto using startTimer_invariant, tick_invariant, pauseTimer_invariant,
               finishTimer_invariant, toggleCheck_invariant.
Qed.

End Invariants.

(** C5.  Each of start, tick, pause and finish takes a record that
    satisfies the invariants (a running record has an anchor and a
    remaining time; an alarming record is not running; a record with 0
    seconds remaining is not running; a remaining time is never
    negative) to a record that satisfies them, and so does every
    sequence of commands: after any run the remaining time, when there
    is one, is not negative. *)
Theorem countdown_preserves_invariants (today : DailyRecord) :
  invariant today →
  (∀ (alloc : Z) (skip : bool) (now : Z),
     invariant (Home.startTimer today alloc skip now))
  ∧ (∀ now : Z, invariant (Home.tick today now))
  ∧ (∀ now : Z, invariant (Home.pauseTimer today now))
  ∧ (∀ alloc : Z, invariant (Home.finishTimer today alloc))
  ∧ (∀ cs : list Home.command,
       invariant (Home.run today cs)
       ∧ ∀ s : Z, remainingSeconds (Home.run today cs) = Some s → 0 ≤ s).
Proof.
  intros Hinv.
  assert (Hrun : ∀ cs, invariant (Home.run today cs)).
  { intros cs. revert today Hinv.
    induction cs as [| c cs IH]; intros today Hinv; [exact Hinv |].
    simpl. apply IH, step_invariant, Hinv. }
  split; [| split; [| split; [| split]]].
  - intros. by apply startTimer_invariant.
  - intros. by apply tick_invariant.
  - intros. by apply pauseTimer_invariant.
  - intros. apply finishTimer_invariant.
  - intros cs. split; [apply Hrun |]. apply (Hrun cs).
Qed.

Lemma fresh_record_invariant : invariant (fresh_record 600).
Proof.
  unfold invariant; simpl; repeat split; intros; congruence.
Defined.

(** A day of play: start with a carry-in of 600 seconds, two ticks, a
    pause, a restart, and a tick long after the time is up. *)
Lemma countdown_preserves_invariants_witness :
  let cs := [Home.Start 15 true 1771027200000; Home.Tick 1771027207000;
             Home.Tick 1771027210400; Home.Pause 1771027300000;
             Home.Start 15 true 1771027400000; Home.Tick 1771030000000] in
  invariant (Home.run (fresh_record 600) cs)
  ∧ remainingSeconds (Home.run (fresh_record 600) cs) = Some 0
  ∧ isAlarming (Home.run (fresh_record 600) cs) = Some true.
Proof.
  split; [| split; reflexivity].
  apply (countdown_preserves_invariants (fresh_record 600)
           fresh_record_invariant).
Defined.

(** ** Commands the state does not allow *)

Section Refusals.

Import Home.

Lemma toggleCheck_running (today : DailyRecord) (key : CheckKey) :
  isRunning today = true → toggleCheck today key = today.
Proof. intros Hrun. unfold toggleCheck. by rewrite Hrun. Qed.

Lemma startTimer_nothing_left
    (today : DailyRecord) (alloc : Z) (skip : bool) (now : Z) :
  shownSeconds today alloc ≤ 0 → startTimer today alloc skip now = today.
Proof.
  unfold shownSeconds, initialSeconds, grantedMinutes, startTimer. intros Hle.
  destruct (negb skip && negb (every_check (checks today))); [reflexivity |].
  destruct (remainingSeconds today), (lockedAllocationMinutes today);
    match goal with |- context [?b <=? 0] => destruct (Z.leb_spec b 0) end;
    (reflexivity || lia).
Qed.

(** The start button is disabled exactly when [startTimer] would have
    nothing to count down. *)
Lemma startTimer_cannot_start
    (today : DailyRecord) (alloc : Z) (skip : bool) (now : Z) :
  canStart today alloc = false → startTimer today alloc skip now = today.
Proof.
  unfold canStart. intros Hcan. apply startTimer_nothing_left.
  by destruct (Z.ltb_spec 0 (shownSeconds today alloc)).
Qed.

(** What [startTimer] does to a running record with time left, once
    past the confirmation: it moves the anchor to [now]. *)
Lemma startTimer_running
    (today : DailyRecord) (alloc R : Z) (skip : bool) (now : Z) :
  negb skip && negb (every_check (checks today)) = false →
  remainingSeconds today = Some R → 0 < R →
  lastStartedAt (startTimer today alloc skip now) = Some now
  ∧ remainingSeconds (startTimer today alloc skip now) = Some R.
Proof.
  intros Hconfirm HR Hpos. unfold startTimer. rewrite Hconfirm, HR.
  destruct (Z.leb_spec R 0); [lia | auto].
Qed.

End Refusals.

(** [startTimer] itself does not test [isRunning]: called on a running
    record past the confirmation it would move the anchor to the time of
    the call.  The page is what keeps it from such a record (section
    [Dialog] below). *)
Remark startTimer_on_running_record_moves_anchor :
  let today := running_record 100 1771027200000 in
  let next := Home.startTimer today 45 false 1771027205000 in
  isRunning today = true
  ∧ next ≠ today
  ∧ lastStartedAt next = Some 1771027205000
  ∧ remainingSeconds (Home.tick today 1771027205999) = Some 95
  ∧ remainingSeconds (Home.tick next 1771027205999) = Some 100.
Proof. repeat split. discriminate. Qed.

(** ** The dialog is closed while the record runs *)

Section Dialog.

Import Home.

Lemma startTimer_closes_dialog
    (record : DailyRecord) (alloc : Z) (skip shown : bool) (now : Z) :
  isRunning record = false →
  startTimer_dialog record alloc skip shown = true →
  isRunning (startTimer record alloc skip now) = false.
Proof.
  intros Hidle. unfold startTimer_dialog, startTimer.
  destruct (negb skip && negb (every_check (checks record))); [done |].
  match goal with |- context [?b <=? 0] => destruct (b <=? 0) end; done.
Qed.

Lemma tick_idle_record (record : DailyRecord) (now : Z) :
  isRunning record = false → tick record now = record.
Proof. intros Hidle. unfold tick. by rewrite Hidle. Qed.

Lemma handle_dialog_over_idle (page : Page) (e : event) :
  dialog_over_idle page → dialog_over_idle (handle page e).
Proof.
  unfold dialog_over_idle. destruct page as [record shown].
  cbn [today showStartConfirm]. intros Hpage.
  destruct e as [alloc now | alloc now | | now | alloc | key | now
                | todayKey records latestSettings];
    cbn [handle today showStartConfirm].
  - destruct (isRunning record) eqn:Hrun; cbn [orb].
    { cbn [today showStartConfirm]. by rewrite Hrun. }
    destruct (negb (canStart record alloc)); cbn [today showStartConfirm].
    { by rewrite Hrun. }
    by apply startTimer_closes_dialog.
  - destruct shown; cbn [today showStartConfirm]; [| done].
    apply startTimer_closes_dialog. by apply Hpage.
  - by destruct shown.
  - destruct (isRunning record) eqn:Hrun; cbn [today showStartConfirm].
    + intros Hshown. by specialize (Hpage Hshown).
    + by rewrite Hrun.
  - destruct (negb (shownSeconds record alloc =? 0) || isRunning record
              || truthy_flag (isAlarming record));
      cbn [today showStartConfirm]; [done | exact Hpage].
  - destruct (isRunning record) eqn:Hrun; cbn [today showStartConfirm].
    + by rewrite Hrun.
    + intros _. unfold toggleCheck. by rewrite Hrun.
  - intros Hshown. rewrite tick_idle_record; by apply Hpage.
  - unfold rollover.
    destruct (String.eqb (date record) todayKey); [exact Hpage | done].
Qed.

Lemma session_dialog_over_idle (es : list event) (page : Page) :
  dialog_over_idle page → dialog_over_idle (session page es).
Proof.
  revert page. induction es as [| e es IH]; intros page Hpage; [exact Hpage |].
  apply (IH (handle page e)), handle_dialog_over_idle, Hpage.
Qed.

End Dialog.



(** ** The remaining time under each command *)

Section Monotone.

Import Home.

Lemma tick_remaining_le (prev : DailyRecord) (now R R' : Z) :
  remainingSeconds prev = Some R →
  remainingSeconds (tick prev now) = Some R' →
  0 ≤ R → R' ≤ R.
Proof.
  unfold tick. intros HR.
  assert (Hsame : remainingSeconds prev = Some R' → 0 ≤ R → R' ≤ R)
    by (intros; assert (R' = R) by congruence; lia).
  destruct (negb (isRunning prev) || falsy (lastStartedAt prev)
            || is_null (remainingSeconds prev)); [exact Hsame |].
  destruct (lastStartedAt prev) as [started |]; [| exact Hsame].
  rewrite HR.
  destruct (Z.leb_spec ((now - started) / 1000) 0);
    [exact Hsame | simpl; intros [= <-]; lia].
Qed.

Lemma startTimer_remaining_eq
    (today : DailyRecord) (alloc R : Z) (skip : bool) (now : Z) :
  remainingSeconds today = Some R →
  remainingSeconds (startTimer today alloc skip now) = Some R.
Proof.
  unfold startTimer. intros HR.
  destruct (negb skip && negb (every_check (checks today))); [exact HR |].
  rewrite HR. destruct (Z.leb_spec R 0); [exact HR | reflexivity].
Qed.

(** A pause when the clock has not gone back behind the anchor. *)
Lemma pauseTimer_remaining_le (today : DailyRecord) (now R R' A : Z) :
  remainingSeconds today = Some R → lastStartedAt today = Some A →
  remainingSeconds (pauseTimer today now) = Some R' →
  0 ≤ R → A ≤ now → R' ≤ R.
Proof.
  unfold pauseTimer. intros HR HA.
  destruct (negb (isRunning today) || is_null (remainingSeconds today)
            || falsy (lastStartedAt today));
    [intros; assert (R' = R) by congruence; lia |].
  rewrite HR, HA. simpl. intros [= <-] HR0 Hnow.
  assert (0 ≤ (now - A) / 1000) by (apply Z.div_pos; lia). lia.
Qed.

Lemma finishTimer_remaining_le (today : DailyRecord) (alloc R R' : Z) :
  remainingSeconds today = Some R →
  remainingSeconds (finishTimer today alloc) = Some R' →
  0 ≤ R → R' ≤ R.
Proof. intros _ [= <-] HR. exact HR. Qed.

End Monotone.

(** C6, at a clock that went back.  The record runs with 100 seconds
    left; the pause comes when the clock shows 5 seconds less than the
    anchor: the elapsed time is -5 seconds and the remaining time grows
    to 105 seconds.  The tick at the same time leaves the record as it
    is. *)
Theorem pauseTimer_backwards_clock_raises_remaining :
  let today := running_record 100 1771027210000 in
  let now := 1771027205000 in
  remainingSeconds today = Some 100
  ∧ remainingSeconds (Home.pauseTimer today now) = Some 105
  ∧ Home.tick today now = today.
Proof. repeat split. Qed.

(** ** The calendar and the date keys *)

Section CivilCalendar.

(** The year of the era is recovered from the day of the era. *)
Lemma year_of_era_recovered (yoe doy : Z) :
  0 ≤ yoe ≤ 399 → 0 ≤ doy ≤ 365 →
  (doy = 365 → (yoe + 1) mod 4 = 0 ∧ ((yoe + 1) mod 100 ≠ 0 ∨ yoe = 399)) →
  let doe := yoe * 365 + yoe / 4 - yoe / 100 + doy in
  (doe - doe / 1460 + doe / 36524 - doe / 146096) / 365 = yoe ∧ 0 ≤ doe < 146097.
Proof.
  intros Hy Hd Hleap doe. subst doe.
  assert (Hc : yoe / 100 = 0 ∨ yoe / 100 = 1 ∨ yoe / 100 = 2 ∨ yoe / 100 = 3).
  { Z.div_mod_to_equations. lia. }
  destruct Hc as [Hc | [Hc | [Hc | Hc]]]; rewrite Hc; Z.div_mod_to_equations; lia.
Qed.

Lemma leap_year_spec (y : Z) :
  leap_year y = true <-> (y mod 4 = 0 ∧ (y mod 100 ≠ 0 ∨ y mod 400 = 0)).
Proof.
  unfold leap_year.
  destruct (Z.eqb_spec (y mod 4) 0), (Z.eqb_spec (y mod 100) 0),
    (Z.eqb_spec (y mod 400) 0); simpl; split; try tauto; try discriminate;
    intros; try lia.
  all: Z.div_mod_to_equations; lia.
Qed.

Lemma days_in_month_cases (y m : Z) :
  1 ≤ m ≤ 12 →
  (m = 2 ∧ (y mod 4 = 0 ∧ (y mod 100 ≠ 0 ∨ y mod 400 = 0))
     ∧ days_in_month y m = 29)
  ∨ (m = 2 ∧ ¬ (y mod 4 = 0 ∧ (y mod 100 ≠ 0 ∨ y mod 400 = 0))
      ∧ days_in_month y m = 28)
  ∨ ((m = 4 ∨ m = 6 ∨ m = 9 ∨ m = 11) ∧ days_in_month y m = 30)
  ∨ ((m = 1 ∨ m = 3 ∨ m = 5 ∨ m = 7 ∨ m = 8 ∨ m = 10 ∨ m = 12)
      ∧ days_in_month y m = 31).
Proof.
  intros Hm. unfold days_in_month.
  destruct (Z.eqb_spec m 2) as [-> | Hne].
  - destruct (leap_year y) eqn:Hl.
    + left. apply leap_year_spec in Hl. auto.
    + right; left. split; [reflexivity |]. split; [| reflexivity].
      intros Hc. apply leap_year_spec in Hc. congruence.
  - destruct (Z.eqb_spec m 4), (Z.eqb_spec m 6), (Z.eqb_spec m 9),
      (Z.eqb_spec m 11); simpl;
      first [ right; right; left; split; [lia | reflexivity]
            | right; right; right; split; [lia | reflexivity] ].
Qed.

(** The month counted from March and the day of the year that starts
    in March. *)
Lemma month_from_march (m : Z) :
  1 ≤ m ≤ 12 →
  let mp := if m <=? 2 then m + 9 else m - 3 in
  0 ≤ mp ≤ 11 ∧ (if mp <? 10 then mp + 3 else mp - 9) = m
  ∧ ((m ≤ 2 ∧ mp = m + 9) ∨ (2 < m ∧ mp = m - 3)).
Proof.
  intros Hm mp. subst mp.
  destruct (Z.leb_spec m 2).
  - destruct (Z.ltb_spec (m + 9) 10); lia.
  - destruct (Z.ltb_spec (m - 3) 10); lia.
Qed.

Lemma civil_roundtrip (y m d : Z) :
  valid_date y m d → civil_from_days (days_from_civil y m d) = (y, m, d).
Proof.
  intros [Hm Hd].
  destruct (month_from_march m Hm) as (Hmp & Hback & Hmpm).
  set (mp := if m <=? 2 then m + 9 else m - 3) in *.
  assert (Hadj : (m ≤ 2 ∧ (if m <=? 2 then y - 1 else y) = y - 1)
                 ∨ (2 < m ∧ (if m <=? 2 then y - 1 else y) = y))
    by (destruct (Z.leb_spec m 2); lia).
  set (y' := if m <=? 2 then y - 1 else y) in *.
  set (era := y' / 400).
  set (yoe := y' - era * 400).
  set (doy := (153 * mp + 2) / 5 + d - 1).
  set (doe := yoe * 365 + yoe / 4 - yoe / 100 + doy).
  assert (Hdays : days_from_civil y m d = doe + era * 146097 - 719468)
    by (unfold days_from_civil; fold mp y' era yoe doy doe; lia).
  assert (Hyoe : 0 ≤ yoe ≤ 399)
    by (subst yoe era; Z.div_mod_to_equations; lia).
  pose proof (days_in_month_cases y m Hm) as Hdim.
  assert (Hdoy : 0 ≤ doy ≤ 365
            ∧ (doy = 365 →
                (yoe + 1) mod 4 = 0 ∧ ((yoe + 1) mod 100 ≠ 0 ∨ yoe = 399))
            ∧ (5 * doy + 2) / 153 = mp
            ∧ doy - (153 * mp + 2) / 5 + 1 = d).
  { clearbody mp y'. subst doe doy yoe era.
    repeat split; Z.div_mod_to_equations; lia. }
  destruct Hdoy as (Hdoy & Hl365 & Hmp' & Hdd).
  destruct (year_of_era_recovered yoe doy Hyoe Hdoy Hl365) as [HK Hdoe]. fold doe in HK, Hdoe.
  rewrite Hdays. unfold civil_from_days. cbv zeta.
  replace (doe + era * 146097 - 719468 + 719468) with (doe + era * 146097)
    by lia.
  rewrite Z.div_add by lia. rewrite (Z.div_small doe) by lia.
  replace (doe + era * 146097 - (0 + era) * 146097) with doe by lia.
  rewrite HK.
  replace (doe - (365 * yoe + yoe / 4 - yoe / 100)) with doy by (subst doe; lia).
  rewrite Hmp', Hdd, Hback.
  f_equal. f_equal. subst yoe.
  destruct (Z.leb_spec m 2); lia.
Qed.

Lemma day_before_spec (y m d : Z) :
  valid_date y m d →
  let '(y', m', d') := day_before y m d in
  valid_date y' m' d' ∧ days_from_civil y' m' d' = days_from_civil y m d - 1.
Proof.
  intros [Hm Hd]. unfold day_before.
  destruct (Z.ltb_spec 1 d).
  - split; [split; lia |]. unfold days_from_civil. lia.
  - assert (d = 1) by lia. subst d.
    destruct (Z.ltb_spec 1 m).
    + assert (Hm' : 1 ≤ m - 1 ≤ 12) by lia.
      pose proof (days_in_month_cases y (m - 1) Hm') as Hdim.
      split; [split; lia |].
      unfold days_from_civil.
      set (dim := days_in_month y (m - 1)) in *. clearbody dim.
      destruct (Z.leb_spec m 2), (Z.leb_spec (m - 1) 2);
        Z.div_mod_to_equations; lia.
    + assert (m = 1) by lia. subst m.
      split; [split; [lia | change (days_in_month (y - 1) 12) with 31; lia] |].
      unfold days_from_civil.
      change (1 <=? 2) with true. change (12 <=? 2) with false. cbv iota.
      Z.div_mod_to_equations; lia.
Qed.

Lemma civil_day_before (y m d : Z) :
  valid_date y m d →
  civil_from_days (days_from_civil y m d - 1) = day_before y m d.
Proof.
  intros Hv. pose proof (day_before_spec y m d Hv) as H.
  destruct (day_before y m d) as [[y' m'] d'].
  destruct H as [Hv' <-]. apply civil_roundtrip; exact Hv'.
Qed.

End CivilCalendar.

Section Texts.

Lemma digit_char_spec (d : Z) :
  0 ≤ d ≤ 9 →
  is_digit (digit_char d) = true
  ∧ Z.of_N (N_of_ascii (digit_char d)) - 48 = d.
Proof.
  intros Hd.
  assert (Hcases : d = 0 ∨ d = 1 ∨ d = 2 ∨ d = 3 ∨ d = 4 ∨ d = 5 ∨ d = 6
                   ∨ d = 7 ∨ d = 8 ∨ d = 9) by lia.
  repeat (destruct Hcases as [-> | Hcases]; [by split |]).
  by subst d.
Qed.

Lemma digits_go_value (fuel : nat) (n : Z) (acc : string) :
  0 ≤ n < 10 ^ (Z.of_nat fuel + 1) →
  digits_value (digits_go fuel n acc) 0 = digits_value acc n
  ∧ all_digits (digits_go fuel n acc) = all_digits acc
  ∧ digits_go fuel n acc ≠ "".
Proof.
  revert n acc. induction fuel as [| fuel IH]; intros n acc Hn.
  - assert (Hlt : 0 ≤ n < 10) by (simpl in Hn; lia).
    destruct (digit_char_spec (n mod 10)) as [Hd Hv];
      [Z.div_mod_to_equations; lia |].
    cbn [digits_go digits_value all_digits]. rewrite Hd, Hv.
    rewrite Z.mod_small by lia.
    repeat split; try discriminate; f_equal; lia.
  - destruct (digit_char_spec (n mod 10)) as [Hd Hv];
      [Z.div_mod_to_equations; lia |].
    cbn [digits_go]. destruct (Z.ltb_spec n 10) as [Hlt | Hge].
    + cbn [digits_value all_digits]. rewrite Hd, Hv.
      rewrite Z.mod_small by lia.
    repeat split; try discriminate; f_equal; lia.
    + assert (Hdiv : 0 ≤ n / 10 < 10 ^ (Z.of_nat fuel + 1)).
      { replace (Z.of_nat (S fuel) + 1) with (Z.succ (Z.of_nat fuel + 1)) in Hn
          by lia.
        rewrite Z.pow_succ_r in Hn by lia.
        split; [apply Z.div_pos; lia |].
        apply Z.div_lt_upper_bound; lia. }
      destruct (IH (n / 10) (String (digit_char (n mod 10)) acc) Hdiv)
        as (Hval & Hall & Hne).
      rewrite Hval, Hall. cbn [digits_value all_digits]. rewrite Hd, Hv.
      repeat split; try exact Hne; f_equal; Z.div_mod_to_equations; lia.
Qed.

Lemma decimal_spec (n : Z) :
  0 ≤ n →
  Number_of_text (decimal n) = Some n ∧ all_digits (decimal n) = true.
Proof.
  intros Hn. unfold decimal. destruct (Z.ltb_spec n 0); [lia |].
  assert (Hbound : 0 ≤ n < 10 ^ (Z.of_nat (Z.to_nat (Z.log2 n)) + 1)).
  { split; [lia |]. rewrite Z2Nat.id by apply Z.log2_nonneg.
    destruct (Z.eq_dec n 0) as [-> | Hnz]; [reflexivity |].
    pose proof (Z.log2_spec n ltac:(lia)) as [_ Hlog].
    eapply Z.lt_le_trans; [exact Hlog |].
    apply Z.pow_le_mono_l. pose proof (Z.log2_nonneg n). lia. }
  destruct (digits_go_value _ n "" Hbound) as (Hval & Hall & Hne).
  split; [| exact Hall].
  unfold Number_of_text.
  destruct (digits_go (Z.to_nat (Z.log2 n)) n "") eqn:Hgo; [done |].
  rewrite Hall, Hval. reflexivity.
Qed.


Lemma padded_spec (n : Z) :
  0 ≤ n ≤ 99 →
  Number_of_text (padStart2 (decimal n)) = Some n
  ∧ all_digits (padStart2 (decimal n)) = true.
Proof.
  intros Hn. destruct (decimal_spec n ltac:(lia)) as [Hnum Hall].
  unfold padStart2.
  destruct (decimal n) as [| c [| c' rest]] eqn:Hdec; [done | | by split].
  cbn [String.length]. change ("0" ++ String c "")%string with (String "0" (String c "")).
  unfold Number_of_text in *. cbn [all_digits] in *.
  rewrite andb_true_r in Hall. rewrite Hall in *. simpl in *.
  split; [exact Hnum | reflexivity].
Qed.

Lemma digit_is_no_dash (c : ascii) :
  is_digit c = true → Ascii.eqb c "-" = false.
Proof.
  destruct c as [[] [] [] [] [] [] [] []]; (reflexivity || discriminate).
Qed.

Lemma append_cons (a : string) (c : ascii) (b : string) :
  ((a ++ String c "") ++ b = a ++ String c b)%string.
Proof.
  induction a as [| x a IH]; [reflexivity |].
  change (String x ((a ++ String c "") ++ b) = String x (a ++ String c b))%string.
  by f_equal.
Qed.

Lemma append_empty (a : string) : (a ++ "" = a)%string.
Proof.
  induction a as [| x a IH]; [reflexivity |].
  change (String x (a ++ "") = String x a)%string. by f_equal.
Qed.

(** Splitting reads a run of digits up to the next dash. *)
Lemma split_dash_digits (a rest current : string) :
  all_digits a = true →
  split_dash (a ++ rest) current = split_dash rest (current ++ a).
Proof.
  revert current. induction a as [| c a IH]; intros current Hall.
  - by rewrite append_empty.
  - cbn [all_digits] in Hall. apply andb_prop in Hall as [Hc Ha].
    change (String c a ++ rest)%string with (String c (a ++ rest)%string).
    cbn [split_dash]. rewrite (digit_is_no_dash c Hc).
    rewrite IH by exact Ha. by rewrite append_cons.
Qed.

Lemma split_dash_key (a b c : string) :
  all_digits a = true → all_digits b = true → all_digits c = true →
  split_dash (a ++ "-" ++ b ++ "-" ++ c) "" = [a; b; c].
Proof.
  intros Ha Hb Hc.
  rewrite split_dash_digits by exact Ha.
  change ("-" ++ b ++ "-" ++ c)%string with (String "-" (b ++ "-" ++ c)%string).
  cbn [split_dash]. change (Ascii.eqb "-" "-") with true. cbv iota.
  rewrite split_dash_digits by exact Hb.
  change ("-" ++ c)%string with (String "-" c).
  cbn [split_dash]. change (Ascii.eqb "-" "-") with true. cbv iota.
  rewrite <- (append_empty c) at 1.
  rewrite split_dash_digits by exact Hc. reflexivity.
Qed.

End Texts.

Section Yesterday.

Lemma days_in_month_le (y m : Z) : 1 ≤ m ≤ 12 → 28 ≤ days_in_month y m ≤ 31.
Proof. intros Hm. pose proof (days_in_month_cases y m Hm). lia. Qed.

Lemma days_from_civil_bounds (y m d : Z) :
  0 ≤ y ≤ 9999 → 1 ≤ m ≤ 12 → 0 ≤ d ≤ 31 →
  -800000 ≤ days_from_civil y m d ≤ 3000000.
Proof.
  intros Hy Hm Hd. unfold days_from_civil.
  destruct (Z.leb_spec m 2); Z.div_mod_to_equations; lia.
Qed.

Lemma MakeDay_in_month (y m d : Z) :
  1 ≤ m ≤ 12 → MakeDay y (m - 1) d = days_from_civil y m d.
Proof.
  intros Hm. unfold MakeDay.
  rewrite Z.div_small, Z.mod_small by lia.
  replace (y + 0) with y by lia. replace (m - 1 + 1) with m by lia.
  unfold days_from_civil. lia.
Qed.

Lemma Day_of_midnight (D : Z) : Day (D * msPerDay) = D.
Proof. unfold Day. by rewrite Z.div_mul. Qed.

Lemma TimeClip_midnight (D : Z) :
  -800000 ≤ D ≤ 3000000 → TimeClip (D * msPerDay) = Some (D * msPerDay).
Proof.
  intros HD. unfold TimeClip, msPerDay.
  destruct (Z.leb_spec (Z.abs (D * 86400000)) 8640000000000000); [done | lia].
Qed.

Lemma fromDateKeyToUtcDate_key (y m d : Z) :
  100 ≤ y ≤ 9999 → valid_date y m d →
  Home.fromDateKeyToUtcDate (format_key (y, m, d))
  = Some (days_from_civil y m d * msPerDay).
Proof.
  intros Hy [Hm Hd]. pose proof (days_in_month_le y m Hm) as Hdim.
  destruct (decimal_spec y ltac:(lia)) as [Hny Hay].
  destruct (padded_spec m ltac:(lia)) as [Hnm Ham].
  destruct (padded_spec d ltac:(lia)) as [Hnd Had].
  unfold Home.fromDateKeyToUtcDate, format_key.
  rewrite split_dash_key by assumption.
  rewrite Hny, Hnm, Hnd. unfold Date_UTC.
  destruct (Z.leb_spec 0 y), (Z.leb_spec y 99); try lia. cbn [andb].
  rewrite MakeDay_in_month by lia.
  apply TimeClip_midnight, days_from_civil_bounds; lia.
Qed.

(** [getYesterdayKey] of the main page computes the day before. *)
Lemma getYesterdayKey_day_before (y m d : Z) :
  100 ≤ y ≤ 9999 → valid_date y m d →
  Home.getYesterdayKey (format_key (y, m, d)) = format_key (day_before y m d).
Proof.
  intros Hy Hv. pose proof Hv as [Hm Hd].
  pose proof (days_in_month_le y m Hm) as Hdim.
  unfold Home.getYesterdayKey.
  rewrite fromDateKeyToUtcDate_key by assumption.
  rewrite Day_of_midnight, civil_roundtrip by assumption.
  unfold setUTCDate.
  rewrite Day_of_midnight, civil_roundtrip by assumption.
  rewrite MakeDay_in_month by lia. rewrite Z.mod_mul by done.
  rewrite Z.add_0_r, TimeClip_midnight
    by (apply days_from_civil_bounds; lia).
  replace (days_from_civil y m (d - 1)) with (days_from_civil y m d - 1)
    by (unfold days_from_civil; lia).
  by rewrite Day_of_midnight, civil_day_before.
Qed.

(** So does the one of the settings page, on a machine whose zone has
    kept one offset. *)
Lemma getYesterdayKey_settings_day_before (tz y m d : Z) :
  0 ≤ y → valid_date y m d →
  SettingsPage.getYesterdayKey (fixed_offset tz) (format_key (y, m, d))
  = format_key (day_before y m d).
Proof.
  intros Hy Hv. pose proof Hv as [Hm Hd].
  pose proof (days_in_month_le y m Hm) as Hdim.
  destruct (decimal_spec y Hy) as [Hny Hay].
  destruct (padded_spec m ltac:(lia)) as [Hnm Ham].
  destruct (padded_spec d ltac:(lia)) as [Hnd Had].
  unfold SettingsPage.getYesterdayKey, format_key at 1.
  rewrite split_dash_key by assumption.
  rewrite Hny, Hnm, Hnd, MakeDay_in_month by lia.
  unfold UTC, LocalTime, fixed_offset. cbn [offset_at offset_of_local].
  replace (days_from_civil y m d * msPerDay - tz * 60000 + tz * 60000)
    with (days_from_civil y m d * msPerDay) by lia.
  rewrite Day_of_midnight, civil_roundtrip by assumption.
  rewrite MakeDay_in_month by lia. rewrite Z.mod_mul by done.
  replace (days_from_civil y m (d - 1) * msPerDay + 0 - tz * 60000
           + tz * 60000)
    with ((days_from_civil y m d - 1) * msPerDay)
    by (unfold days_from_civil; lia).
  by rewrite Day_of_midnight, civil_day_before.
Qed.

(** A key determines its date. *)
Lemma format_key_inj (y m d y' m' d' : Z) :
  0 ≤ y → 0 ≤ m ≤ 99 → 0 ≤ d ≤ 99 →
  0 ≤ y' → 0 ≤ m' ≤ 99 → 0 ≤ d' ≤ 99 →
  format_key (y, m, d) = format_key (y', m', d') →
  y = y' ∧ m = m' ∧ d = d'.
Proof.
  intros Hy Hm Hd Hy' Hm' Hd' Hkey.
  destruct (decimal_spec y Hy) as [Hny Hay].
  destruct (padded_spec m Hm) as [Hnm Ham].
  destruct (padded_spec d Hd) as [Hnd Had].
  destruct (decimal_spec y' Hy') as [Hny' Hay'].
  destruct (padded_spec m' Hm') as [Hnm' Ham'].
  destruct (padded_spec d' Hd') as [Hnd' Had'].
  apply (f_equal (λ k, split_dash k "")) in Hkey. unfold format_key in Hkey.
  rewrite !split_dash_key in Hkey by assumption.
  injection Hkey as Hty Htm Htd.
  rewrite Hty in Hny. rewrite Htm in Hnm. rewrite Htd in Hnd.
  repeat split; congruence.
Qed.

(** The key of the day before is another key. *)
Lemma day_before_key_differs (y m d : Z) :
  100 ≤ y ≤ 9999 → valid_date y m d →
  format_key (day_before y m d) ≠ format_key (y, m, d).
Proof.
  intros Hy Hv Hkey. pose proof Hv as [Hm Hd].
  pose proof (days_in_month_le y m Hm) as Hdim.
  pose proof (day_before_spec y m d Hv) as Hspec.
  assert (Hrange : let '(y', m', d') := day_before y m d in
                   0 ≤ y' ∧ 0 ≤ m' ≤ 99 ∧ 0 ≤ d' ≤ 99).
  { unfold day_before.
    destruct (Z.ltb_spec 1 d); [lia |].
    destruct (Z.ltb_spec 1 m); [| lia].
    pose proof (days_in_month_le y (m - 1) ltac:(lia)). lia. }
  destruct (day_before y m d) as [[y' m'] d'].
  destruct Hrange as (? & ? & ?). destruct Hspec as [_ Hdays].
  apply format_key_inj in Hkey as (-> & -> & ->); lia.
Qed.

End Yesterday.

(** ** The record of a new day *)

Section Rollover.

Import Home.

Lemma createRecordForDate_fresh
    (dateKey : string) (records : gmap string DailyRecord) (settings : Settings) :
  records !! dateKey = None →
  createRecordForDate dateKey records settings = {|
    date := dateKey;
    checks := DEFAULT_CHECKS;
    carryInSeconds :=
      carryInSeconds (createRecordForDate dateKey records settings);
    lockedAllocationMinutes := None;
    remainingSeconds := None;
    isRunning := false;
    isAlarming := Some false;
    lastStartedAt := None;
  |}.
Proof. intros Hnone. unfold createRecordForDate. by rewrite Hnone. Qed.

Lemma createRecordForDate_carry
    (dateKey : string) (records : gmap string DailyRecord) (settings : Settings) :
  records !! dateKey = None →
  carryInSeconds (createRecordForDate dateKey records settings) =
    match records !! getYesterdayKey dateKey with
    | Some y =>
        match remainingSeconds y with
        | Some s => if carryOverEnabled settings && (0 <? s) then s else 0
        | None => 0
        end
    | None => 0
    end.
Proof.
  intros Hnone. unfold createRecordForDate. rewrite Hnone. simpl.
  destruct (records !! getYesterdayKey dateKey) as [y |]; [| reflexivity].
  destruct (remainingSeconds y) as [s |]; [| reflexivity].
  destruct (carryOverEnabled settings); [| reflexivity]. simpl.
  destruct (Z.eqb_spec s 0), (Z.ltb_spec 0 s); (reflexivity || lia).
Qed.

Lemma rollover_frame
    (prev : DailyRecord) (todayKey k : string)
    (records : gmap string DailyRecord) (settings : Settings) :
  date prev ≠ todayKey → k ≠ todayKey →
  (rollover prev todayKey records settings).2 !! k
  = (<[date prev := prev]> records) !! k.
Proof.
  intros Hdate Hk. unfold rollover.
  destruct (String.eqb_spec (date prev) todayKey); [contradiction |].
  simpl. by rewrite lookup_insert_ne.
Qed.

End Rollover.

(** C4.  Take the key of a date of the years 100 to 9999 (below 100
    [Date.UTC] reads the year as one of the twentieth century) and a
    records map.  If the map has no entry for the key,
    [createRecordForDate] returns a fresh record: its carry-in is the
    remaining time of the record of the day before in the calendar when
    carry-over is enabled, that record exists and its remaining time is
    positive, and 0 otherwise (carry-over disabled, no such record, or
    no positive remaining time); its checklist is cleared, its locked
    allocation, remaining time and anchor are null, it neither runs nor
    alarms.  The map is only read: the rollover that stores the fresh
    record leaves the entry of the day before, and every entry under
    another key than the new one, as it was once the outgoing record was
    stored.  If the map has an entry for the key, that entry is returned
    with its alarming flag made a boolean, hence unchanged when the flag
    was one. *)
Theorem createRecordForDate_carry_over
    (y m d : Z) (records : gmap string DailyRecord)
    (settings : Home.Settings) :
  100 ≤ y ≤ 9999 → valid_date y m d →
  let dateKey := format_key (y, m, d) in
  let fresh := Home.createRecordForDate dateKey records settings in
  let prior := records !! format_key (day_before y m d) in
  (records !! dateKey = None →
     (∀ (p : DailyRecord) (s : Z),
        Home.carryOverEnabled settings = true → prior = Some p →
        remainingSeconds p = Some s → 0 < s → carryInSeconds fresh = s)
     ∧ (Home.carryOverEnabled settings = false ∨ prior = None
        ∨ (∃ p : DailyRecord, prior = Some p
             ∧ ∀ s : Z, remainingSeconds p = Some s → s ≤ 0) →
        carryInSeconds fresh = 0)
     ∧ date fresh = dateKey
     ∧ checks fresh = {| prep := false; homework := false;
                         sleep := false; leave := false |}
     ∧ lockedAllocationMinutes fresh = None
     ∧ remainingSeconds fresh = None
     ∧ lastStartedAt fresh = None
     ∧ isRunning fresh = false
     ∧ isAlarming fresh = Some false)
  ∧ (∀ prev : DailyRecord,
       date prev ≠ dateKey →
       let stored := (Home.rollover prev dateKey records settings).2 in
       stored !! format_key (day_before y m d)
       = (<[date prev := prev]> records) !! format_key (day_before y m d)
       ∧ ∀ k : string,
           k ≠ dateKey → stored !! k = (<[date prev := prev]> records) !! k)
  ∧ (∀ existing : DailyRecord,
       records !! dateKey = Some existing →
       fresh = {|
         date := date existing;
         checks := checks existing;
         carryInSeconds := carryInSeconds existing;
         lockedAllocationMinutes := lockedAllocationMinutes existing;
         remainingSeconds := remainingSeconds existing;
         isRunning := isRunning existing;
         isAlarming := Some (truthy_flag (isAlarming existing));
         lastStartedAt := lastStartedAt existing;
       |}
       ∧ (∀ b : bool, isAlarming existing = Some b → fresh = existing)).
Proof.
  intros Hy Hvalid dateKey fresh prior. split; [| split].
  - intros Hnone.
    pose proof (createRecordForDate_carry dateKey records settings Hnone)
      as Hcarry.
    pose proof (createRecordForDate_fresh dateKey records settings Hnone)
      as Hfresh.
    unfold dateKey in Hcarry at 2.
    rewrite (getYesterdayKey_day_before y m d Hy Hvalid) in Hcarry.
    fold fresh in Hcarry, Hfresh. fold prior in Hcarry.
    split; [| split].
    + intros p s Hon Hp Hs Hpos. rewrite Hcarry, Hp, Hs, Hon. simpl.
      destruct (Z.ltb_spec 0 s); [reflexivity | lia].
    + intros [Hoff | [Hno | (p & Hp & Hs)]]; rewrite Hcarry.
      * rewrite Hoff. destruct prior as [p |]; [| reflexivity].
        by destruct (remainingSeconds p).
      * by rewrite Hno.
      * rewrite Hp. destruct (remainingSeconds p) as [s |]; [| reflexivity].
        specialize (Hs s eq_refl).
        destruct (Z.ltb_spec 0 s); [lia |].
        by destruct (Home.carryOverEnabled settings).
    + rewrite Hfresh. simpl. repeat split.
  - intros prev Hprev stored.
    assert (Hframe : ∀ k : string, k ≠ dateKey →
              stored !! k = (<[date prev := prev]> records) !! k)
      by (intros k Hk; by apply rollover_frame).
    split; [| exact Hframe].
    apply Hframe, day_before_key_differs; assumption.
  - intros existing Hex. subst fresh. unfold Home.createRecordForDate.
    rewrite Hex. split; [reflexivity |].
    intros b Hb. rewrite Hb. simpl. rewrite <- Hb. by destruct existing.
Qed.

Lemma sample_date_valid : valid_date 2026 2 14.
Proof. split; [lia |]. change (days_in_month 2026 2) with 28. lia. Defined.

(** The 13th of February 2026 ended with 600 seconds left: with
    carry-over enabled the 14th starts with a carry-in of 600 seconds,
    with carry-over disabled with none.  A record of the 14th stored
    without its alarming flag comes back with the flag off. *)
Lemma createRecordForDate_carry_over_witness :
  let records : gmap string DailyRecord :=
    {["2026-02-13" := yesterday_record (Some 600)]} in
  carryInSeconds
    (Home.createRecordForDate "2026-02-14" records (carry_settings true)) = 600
  ∧ carryInSeconds
      (Home.createRecordForDate "2026-02-14" records (carry_settings false)) = 0
  ∧ isAlarming
      (Home.createRecordForDate "2026-02-14"
         {["2026-02-14" := unflagged_record]} (carry_settings true))
    = Some false.
Proof.
  intros records. split; [| split].
  - destruct (createRecordForDate_carry_over 2026 2 14 records
                (carry_settings true) ltac:(lia) sample_date_valid)
      as [Hfresh _].
    destruct (Hfresh eq_refl) as [Hcarry _].
    apply (Hcarry (yesterday_record (Some 600)) 600);
      [reflexivity | reflexivity | reflexivity | lia].
  - destruct (createRecordForDate_carry_over 2026 2 14 records
                (carry_settings false) ltac:(lia) sample_date_valid)
      as [Hfresh _].
    destruct (Hfresh eq_refl) as (_ & Hzero & _).
    apply Hzero. left. reflexivity.
  - destruct (createRecordForDate_carry_over 2026 2 14
                {["2026-02-14" := unflagged_record]}
                (carry_settings true) ltac:(lia) sample_date_valid)
      as (_ & _ & Hexisting).
    destruct (Hexisting unflagged_record eq_refl) as [Hsame _].
    exact (f_equal isAlarming Hsame).
Defined.

(** ** Loading the settings *)

Section Loading.

#[local] Arguments Math_min : simpl never.
#[local] Arguments Math_max : simpl never.
#[local] Arguments Math_round : simpl never.
#[local] Arguments prop : simpl never.
#[local] Arguments Boolean : simpl never.
#[local] Arguments test_four_digits : simpl never.

Lemma Math_min_int (a b : Z) : Math_min (int a) (int b) = int (Z.min a b).
Proof.
  unfold Math_min, int, Qle_bool. simpl. rewrite !Z.mul_1_r.
  destruct (Z.leb_spec a b); f_equal; f_equal; lia.
Qed.

Lemma Math_max_int (a b : Z) : Math_max (int a) (int b) = int (Z.max a b).
Proof.
  unfold Math_max, int, Qle_bool. simpl. rewrite !Z.mul_1_r.
  destruct (Z.leb_spec a b); f_equal; f_equal; lia.
Qed.

(** The clamp of the loaders, on whatever number [JSON.parse] gave. *)
Lemma clamp_in_range (lo hi : Z) (x : jnumber) :
  lo ≤ hi →
  in_range lo hi
    (Math_max (int lo) (Math_min (int hi) (Math_round (number_of x)))).
Proof.
  intros Hle. destruct x as [q | []]; unfold number_of, Math_round.
  - rewrite Math_min_int, Math_max_int. eexists; split; [reflexivity | lia].
  - exists lo. split; [reflexivity | lia].
  - change (Math_min (int hi) PosInf) with (int hi).
    rewrite Math_max_int. eexists; split; [reflexivity | lia].
Qed.

Lemma default_in_range (lo hi n : Z) : lo ≤ n ≤ hi → in_range lo hi (int n).
Proof. intros. by exists n. Qed.

(** A field of the loader: the clamp of a number, or else the default. *)
Lemma field_in_range (lo hi dflt : Z) (v : value) :
  lo ≤ dflt ≤ hi →
  in_range lo hi
    match v with
    | Some (JNum x) =>
        Math_max (int lo) (Math_min (int hi) (Math_round (number_of x)))
    | _ => int dflt
    end.
Proof.
  intros Hd. destruct v as [[| | x | | |] |];
    auto using default_in_range. apply clamp_in_range. lia.
Qed.

Lemma default_settings_in_range : settings_in_range Home.DEFAULT_SETTINGS.
Proof.
  unfold settings_in_range. simpl.
  repeat split; apply default_in_range; lia.
Qed.

(** Every settings record the main page loads is within the ranges. *)
Lemma loadSettings_in_range (raw : slot) :
  settings_in_range (Home.loadSettings raw).
Proof.
  destruct raw as [| | parsed]; try apply default_settings_in_range.
  destruct parsed; try apply default_settings_in_range;
    unfold settings_in_range; simpl;
    repeat split;
    first [ apply (field_in_range 0 100 70); lia
          | apply (field_in_range 1 180 45); lia
          | apply (field_in_range 1 180 15); lia
          | apply default_in_range; lia ].
Qed.

(** So is every settings record the settings page loads. *)
Lemma loadSettings_settings_page_in_range (raw : slot) :
  let s := SettingsPage.loadSettings raw in
  in_range 0 100 (SettingsPage.alarmVolume s)
  ∧ in_range 1 180 (SettingsPage.fullCompletionMinutes s)
  ∧ in_range 1 180 (SettingsPage.fallbackMinutes s).
Proof.
  destruct raw as [| | parsed]; simpl;
    try (repeat split; apply default_in_range; lia).
  destruct parsed; simpl;
    repeat split;
    first [ apply (field_in_range 0 100 70); lia
          | apply (field_in_range 1 180 45); lia
          | apply (field_in_range 1 180 15); lia
          | apply default_in_range; lia ].
Qed.

(** The PIN the loader returns is the stored value or the default. *)
Lemma loadSettings_pin_cases (raw : slot) :
  Home.parentPin (Home.loadSettings raw) = JStr "1234"
  ∨ ∃ (parsed pin : json),
      raw = Parsed parsed ∧ prop parsed "parentPin" = Some pin
      ∧ test_four_digits pin = true
      ∧ Home.parentPin (Home.loadSettings raw) = pin.
Proof.
  destruct raw as [| | parsed]; [by left | by left |].
  destruct parsed; try (by left); simpl;
    match goal with |- context [prop ?j "parentPin"] =>
      destruct (prop j "parentPin") as [pin |] eqn:Hpin end;
    try (by left);
    (destruct (Boolean (Some pin)); simpl; [| by left]);
    (destruct (test_four_digits pin) eqn:Htest; [| by left]);
    right; eexists _, pin; repeat split; eauto.
Qed.

(** When the stored PIN is a text, or there is none, the loader
    returns a text of four digits. *)
Lemma loadSettings_pin_text (raw : slot) :
  (∀ (parsed pin : json),
     raw = Parsed parsed → prop parsed "parentPin" = Some pin →
     ∃ s : string, pin = JStr s) →
  is_pin (Home.parentPin (Home.loadSettings raw)).
Proof.
  intros Htext.
  destruct (loadSettings_pin_cases raw)
    as [-> | (parsed & pin & -> & Hprop & Htest & ->)].
  - by exists "1234".
  - destruct (Htext parsed pin eq_refl Hprop) as [s ->].
    exists s. split; [reflexivity |].
    unfold test_four_digits in Htest. simpl in Htest.
    apply andb_prop in Htest as [Hlen Hdigits].
    split; [by apply Nat.eqb_eq | exact Hdigits].
Qed.

End Loading.

(** C8.  [allocationFromChecks] returns the full-completion minutes of
    the bucket (weekend or weekday) when all four items are checked and
    the fallback minutes of that bucket otherwise; so, the two values
    being different, it returns the full-completion minutes exactly when
    all four items are checked.  With the settings within their ranges,
    as every settings record the page loads is, the result is an integer
    from 1 to 180. *)
Theorem allocationFromChecks_spec
    (checks : DailyChecks) (settings : Home.Settings) (weekend : bool) :
  let full :=
    if weekend then Home.fullCompletionMinutesWeekend settings
    else Home.fullCompletionMinutes settings in
  let fallback :=
    if weekend then Home.fallbackMinutesWeekend settings
    else Home.fallbackMinutes settings in
  let all_checked :=
    prep checks = true ∧ homework checks = true
    ∧ sleep checks = true ∧ leave checks = true in
  let result := Home.allocationFromChecks checks settings weekend in
  (all_checked → result = full)
  ∧ (¬ all_checked → result = fallback)
  ∧ (full ≠ fallback → (result = full ↔ all_checked))
  ∧ (settings_in_range settings → in_range 1 180 result)
  ∧ (∀ raw : slot,
       in_range 1 180
         (Home.allocationFromChecks checks (Home.loadSettings raw) weekend)).
Proof.
  intros full fallback all_checked result.
  assert (Hcases : (all_checked ∧ result = full)
                   ∨ (¬ all_checked ∧ result = fallback)).
  { subst all_checked result full fallback.
    unfold Home.allocationFromChecks, every_check.
    destruct (prep checks), (homework checks), (sleep checks), (leave checks);
      simpl; first [by left | right; split; [intros (? & ? & ? & ?) |]; done]. }
  assert (Hrange : ∀ s : Home.Settings, settings_in_range s →
            in_range 1 180 (Home.allocationFromChecks checks s weekend)).
  { intros s (_ & ? & ? & ? & ?). unfold Home.allocationFromChecks.
    by destruct (every_check checks), weekend. }
  split; [| split; [| split; [| split]]].
  - intros Hall. by destruct Hcases as [[_ ?] | [? _]].
  - intros Hnot. by destruct Hcases as [[? _] | [_ ?]].
  - intros Hne. destruct Hcases as [[? ?] | [? Hfb]]; split; try done.
    intros Hfull. congruence.
  - apply Hrange.
  - intros raw. apply Hrange, loadSettings_in_range.
Qed.

(** A weekend with the stored weekend minutes 90 and 30: 90 minutes
    when everything is checked, 30 minutes on a fresh checklist, and 90
    minutes only when everything is checked. *)
Lemma allocationFromChecks_spec_witness :
  Home.allocationFromChecks
    {| prep := true; homework := true; sleep := true; leave := true |}
    (Home.loadSettings stored_settings) true = int 90
  ∧ Home.allocationFromChecks Home.DEFAULT_CHECKS
      (Home.loadSettings stored_settings) true = int 30
  ∧ (∀ checks : DailyChecks,
       Home.allocationFromChecks checks
         (Home.loadSettings stored_settings) true = int 90
       ↔ prep checks = true ∧ homework checks = true
         ∧ sleep checks = true ∧ leave checks = true)
  ∧ in_range 1 180
      (Home.allocationFromChecks Home.DEFAULT_CHECKS
         (Home.loadSettings wild_settings) false).
Proof.
  split; [| split; [| split]].
  - destruct (allocationFromChecks_spec
                {| prep := true; homework := true; sleep := true; leave := true |}
                (Home.loadSettings stored_settings) true) as [Hfull _].
    apply Hfull. repeat split.
  - destruct (allocationFromChecks_spec Home.DEFAULT_CHECKS
                (Home.loadSettings stored_settings) true) as (_ & Hfb & _).
    apply Hfb. intros [Hprep _]. discriminate Hprep.
  - intros checks.
    destruct (allocationFromChecks_spec checks
                (Home.loadSettings stored_settings) true)
      as (_ & _ & Hiff & _).
    apply Hiff. discriminate.
  - destruct (allocationFromChecks_spec Home.DEFAULT_CHECKS
                (Home.loadSettings wild_settings) false)
      as (_ & _ & _ & Hrange & _).
    apply Hrange, loadSettings_in_range.
Defined.

(** C9, at a PIN stored as a number.  The settings record holds the
    number 1234 under [parentPin]: the test of the four digits converts
    it to the text "1234" and passes, and both loaders return the number
    itself, not a text of four digits and not the default; with it no
    input unlocks the settings page.  The same happens with the array
    [["1234"]].  The numbers of the record are clamped as the claim says
    ([loadSettings_in_range]), and so is a PIN stored as a text
    ([loadSettings_pin_text]). *)
Theorem loadSettings_lets_numeric_pin_through :
  Home.parentPin (Home.loadSettings numeric_pin_settings)
    = JNum (JFin (1234 # 1))
  ∧ SettingsPage.parentPin (SettingsPage.loadSettings numeric_pin_settings)
    = JNum (JFin (1234 # 1))
  ∧ ¬ is_pin (Home.parentPin (Home.loadSettings numeric_pin_settings))
  ∧ (∀ pinInput : string,
       SettingsPage.unlock
         (SettingsPage.loadSettings numeric_pin_settings) pinInput = false)
  ∧ Home.parentPin
      (Home.loadSettings (Parsed (JObj [("parentPin", JArr [JStr "1234"])])))
    = JArr [JStr "1234"].
Proof.
  split; [reflexivity |].
  split; [reflexivity |].
  split; [intros (s & Hs & _); discriminate Hs |].
  split; [intros; reflexivity | reflexivity].
Qed.

(** ** The date of today on the two pages *)

(** With the machine in the zone of Tokyo the two pages agree. *)
Lemma getTodayKey_agree_in_Tokyo (now : Z) :
  SettingsPage.getTodayKey now Home.TOKYO_OFFSET_MINUTES = Home.getTodayKey now.
Proof. reflexivity. Qed.

(** C7, at an instant and a zone where the two pages disagree.  At
    2026-02-14T16:00:00Z, on a machine whose zone is UTC, the settings
    page takes the 14th for today and the main page the 15th: the reset
    rewrites the record of the 14th and leaves the record the main page
    shows, the one of the 15th, as it was. *)
Theorem getTodayKey_differs_between_pages :
  SettingsPage.getTodayKey sample_instant 0 = "2026-02-14"
  ∧ Home.getTodayKey sample_instant = "2026-02-15"
  ∧ (∀ (settings : SettingsPage.Settings)
       (records : gmap string DailyRecord),
       SettingsPage.resetTodayRecord settings records sample_instant 0
         !! Home.getTodayKey sample_instant
       = records !! Home.getTodayKey sample_instant).
Proof.
  assert (Hsettings : SettingsPage.getTodayKey sample_instant 0 = "2026-02-14")
    by reflexivity.
  assert (Hhome : Home.getTodayKey sample_instant = "2026-02-15")
    by reflexivity.
  split; [exact Hsettings | split; [exact Hhome |]].
  intros settings records. unfold SettingsPage.resetTodayRecord.
  rewrite Hsettings, Hhome. apply lookup_insert_ne. discriminate.
Qed.

(** ** Saving from the settings page *)

Section Saving.

Import SettingsPage.

(** What the settings page writes has no weekend minutes. *)
Lemma stringify_without_weekend (settings : Settings) :
  prop (stringify settings) "fullCompletionMinutesWeekend" = None
  ∧ prop (stringify settings) "fallbackMinutesWeekend" = None.
Proof. split; reflexivity. Qed.

(** So the main page reads the default weekend minutes after any save
    of the settings page. *)
Lemma weekend_defaults_after_save (settings : Settings) :
  Home.fullCompletionMinutesWeekend (Home.loadSettings (saveSettings settings))
    = int 45
  ∧ Home.fallbackMinutesWeekend (Home.loadSettings (saveSettings settings))
    = int 15.
Proof. split; reflexivity. Qed.

(** Among the six settings the page knows, a command changes the one it
    is about. *)
Lemma toggleCarry_frame (settings : Settings) (value : bool) :
  let next := (toggleCarry settings value).1 in
  carryOverEnabled next = value
  ∧ parentPin next = parentPin settings
  ∧ alarmTone next = alarmTone settings
  ∧ alarmVolume next = alarmVolume settings
  ∧ fullCompletionMinutes next = fullCompletionMinutes settings
  ∧ fallbackMinutes next = fallbackMinutes settings.
Proof. repeat split. Qed.

End Saving.

(** C10, at a settings record with weekend minutes.  The record holds
    90 and 30 minutes for the weekend, and the main page reads them.
    The settings page loads the record and saves it with carry-over
    switched on: the saved record has no weekend minutes any more, and
    the main page reads the defaults, 45 and 15. *)
Theorem settings_page_save_loses_weekend_minutes :
  let settings := SettingsPage.loadSettings stored_settings in
  let saved := (SettingsPage.toggleCarry settings true).2 in
  Home.fullCompletionMinutesWeekend (Home.loadSettings stored_settings) = int 90
  ∧ Home.fallbackMinutesWeekend (Home.loadSettings stored_settings) = int 30
  ∧ Home.fullCompletionMinutesWeekend (Home.loadSettings saved) = int 45
  ∧ Home.fallbackMinutesWeekend (Home.loadSettings saved) = int 15
  ∧ Home.carryOverEnabled (Home.loadSettings saved) = true
  ∧ Home.fullCompletionMinutes (Home.loadSettings saved) = int 45.
Proof. repeat split. Qed.

(** ** From day numbers to dates *)

Section DayNumbers.

(** The year of the era and the day of that year, from the day of the
    era. *)
Lemma day_of_era_split (doe : Z) :
  0 ≤ doe ≤ 146096 →
  let yoe := (doe - doe / 1460 + doe / 36524 - doe / 146096) / 365 in
  let doy := doe - (365 * yoe + yoe / 4 - yoe / 100) in
  0 ≤ yoe ≤ 399 ∧ 0 ≤ doy ≤ 365
  ∧ (doy = 365 → (yoe + 1) mod 4 = 0 ∧ ((yoe + 1) mod 100 ≠ 0 ∨ yoe = 399)).
Proof.
  intros Hd yoe doy. subst doy yoe.
  assert (Hb : doe / 36524 = 0 ∨ doe / 36524 = 1 ∨ doe / 36524 = 2
               ∨ doe / 36524 = 3 ∨ doe / 36524 = 4)
    by (Z.div_mod_to_equations; lia).
  destruct Hb as [Hb | [Hb | [Hb | [Hb | Hb]]]]; rewrite Hb;
    Z.div_mod_to_equations; lia.
Qed.

(** Every day number is the day number of the valid date
    [civil_from_days] gives for it. *)
Lemma civil_from_days_valid (z : Z) :
  let '(y, m, d) := civil_from_days z in
  valid_date y m d ∧ days_from_civil y m d = z.
Proof.
  unfold civil_from_days. cbv zeta.
  set (era := (z + 719468) / 146097).
  set (doe := z + 719468 - era * 146097).
  assert (Hdoe : 0 ≤ doe ≤ 146096)
    by (subst doe era; Z.div_mod_to_equations; lia).
  destruct (day_of_era_split doe Hdoe) as (Hyoe & Hdoy & Hleap).
  set (yoe := (doe - doe / 1460 + doe / 36524 - doe / 146096) / 365) in *.
  set (doy := doe - (365 * yoe + yoe / 4 - yoe / 100)) in *.
  set (mp := (5 * doy + 2) / 153).
  set (d := doy - (153 * mp + 2) / 5 + 1).
  assert (Hmp : 0 ≤ mp ≤ 11 ∧ 1 ≤ d ≤ 31
                ∧ (mp = 11 → d = doy - 336)
                ∧ (mp = 1 ∨ mp = 3 ∨ mp = 6 ∨ mp = 8 → d ≤ 30)).
  { subst d mp. clearbody doy. repeat split; try intros; Z.div_mod_to_equations; lia. }
  destruct Hmp as (Hmp & Hd & Hfeb & H30).
  set (m := if mp <? 10 then mp + 3 else mp - 9).
  assert (Hm : (mp < 10 ∧ m = mp + 3) ∨ (10 ≤ mp ∧ m = mp - 9))
    by (subst m; destruct (Z.ltb_spec mp 10); lia).
  set (y := if m <=? 2 then yoe + era * 400 + 1 else yoe + era * 400).
  assert (Hy : (m ≤ 2 ∧ y = yoe + era * 400 + 1) ∨ (2 < m ∧ y = yoe + era * 400))
    by (subst y; destruct (Z.leb_spec m 2); lia).
  assert (Hddef : d = doy - (153 * mp + 2) / 5 + 1) by reflexivity.
  assert (Hdoydef : doy = doe - (365 * yoe + yoe / 4 - yoe / 100))
    by reflexivity.
  assert (Hdoedef : doe = z + 719468 - era * 146097) by reflexivity.
  clearbody m y d mp.
  assert (Hm12 : 1 ≤ m ≤ 12) by lia.
  split.
  - split; [exact Hm12 |].
    pose proof (days_in_month_cases y m Hm12) as Hdim.
    set (dim := days_in_month y m) in *. clearbody dim.
    clear Hddef Hdoydef Hdoedef. clearbody doy yoe doe era.
    destruct Hdim as [(? & ? & ?) | [(? & Hnl & ?) | [[? ?] | [? ?]]]]; try lia.
    + assert (doy ≠ 365); [| lia].
      intros H365. apply Hnl. specialize (Hleap H365).
      Z.div_mod_to_equations. lia.
  - unfold days_from_civil.
    assert (Hy' : (if m <=? 2 then y - 1 else y) = yoe + era * 400)
      by (destruct (Z.leb_spec m 2); lia).
    rewrite Hy'.
    assert (Hmp' : (if m <=? 2 then m + 9 else m - 3) = mp)
      by (destruct (Z.leb_spec m 2); lia).
    rewrite Hmp'.
    replace ((yoe + era * 400) / 400) with era
      by (Z.div_mod_to_equations; lia).
    replace (yoe + era * 400 - era * 400) with yoe by lia.
    clearbody doy yoe doe era. lia.
Qed.

End DayNumbers.

(** ** Further properties of the countdown *)

Section Ticks.

Import Home.

(** [tick] in closed form, on a record that passes its guard. *)
Lemma tick_running (prev : DailyRecord) (A R now : Z) :
  isRunning prev = true → lastStartedAt prev = Some A → A ≠ 0 →
  remainingSeconds prev = Some R →
  tick prev now =
    if (now - A) / 1000 <=? 0 then prev
    else {|
      date := date prev;
      checks := checks prev;
      carryInSeconds := carryInSeconds prev;
      lockedAllocationMinutes := lockedAllocationMinutes prev;
      remainingSeconds := Some (Z.max 0 (R - (now - A) / 1000));
      isRunning := 0 <? Z.max 0 (R - (now - A) / 1000);
      isAlarming :=
        if Z.max 0 (R - (now - A) / 1000) =? 0 then Some true
        else isAlarming prev;
      lastStartedAt :=
        if 0 <? Z.max 0 (R - (now - A) / 1000)
        then Some (A + (now - A) / 1000 * 1000) else None;
    |}.
Proof.
  intros Hrun HA HA0 HR. unfold tick.
  destruct (guard_passes prev A R Hrun HA HA0 HR) as [-> _].
  by rewrite HA, HR.
Qed.

(** [tick] returns a record that does not pass its guard as it is. *)
Lemma tick_idle (prev : DailyRecord) (now : Z) :
  negb (isRunning prev) || falsy (lastStartedAt prev)
    || is_null (remainingSeconds prev) = true →
  tick prev now = prev.
Proof. intros Hguard. unfold tick. by rewrite Hguard. Qed.

Lemma guard_cases (r : DailyRecord) :
  negb (isRunning r) || falsy (lastStartedAt r)
    || is_null (remainingSeconds r) = true
  ∨ ∃ A R : Z, isRunning r = true ∧ lastStartedAt r = Some A ∧ A ≠ 0
               ∧ remainingSeconds r = Some R.
Proof.
  destruct (isRunning r); [| by left].
  destruct (lastStartedAt r) as [A |]; [| by left].
  destruct (remainingSeconds r) as [R |];
    [| left; simpl; by destruct (A =? 0)].
  destruct (Z.eqb_spec A 0) as [-> | HA]; [by left |].
  right. by exists A, R.
Qed.

(** What no tick changes. *)
Lemma tick_frame (prev : DailyRecord) (now : Z) :
  date (tick prev now) = date prev
  ∧ checks (tick prev now) = checks prev
  ∧ carryInSeconds (tick prev now) = carryInSeconds prev
  ∧ lockedAllocationMinutes (tick prev now) = lockedAllocationMinutes prev.
Proof.
  destruct (guard_cases prev) as [Hidle | (A & R & Hrun & HA & HA0 & HR)].
  { by rewrite (tick_idle prev now Hidle). }
  rewrite (tick_running prev A R now Hrun HA HA0 HR).
  by destruct ((now - A) / 1000 <=? 0).
Qed.

End Ticks.

(** X1.  Ticks that come late or are dropped lose no time: on a record
    whose anchor, if it has one, is a time after the epoch, a tick at
    [t1] followed by a tick at a later [t2] leaves the record that the
    single tick at [t2] leaves. *)
Theorem tick_coalesces (r : DailyRecord) (t1 t2 : Z) :
  (∀ A : Z, lastStartedAt r = Some A → 0 < A) →
  t1 ≤ t2 →
  Home.tick (Home.tick r t1) t2 = Home.tick r t2.
Proof.
  intros Hpos Hle.
  destruct (guard_cases r) as [Hidle | (A & R & Hrun & HA & HA0 & HR)].
  { by rewrite !(tick_idle r) by exact Hidle. }
  specialize (Hpos A HA).
  pose proof (tick_running r A R t1 Hrun HA HA0 HR) as H1.
  pose proof (tick_running r A R t2 Hrun HA HA0 HR) as H2.
  assert (Hmono : (t1 - A) / 1000 ≤ (t2 - A) / 1000)
    by (apply Z.div_le_mono; lia).
  assert (Hsecond : (t2 - (A + (t1 - A) / 1000 * 1000)) / 1000
                    = (t2 - A) / 1000 - (t1 - A) / 1000).
  { replace (t2 - (A + (t1 - A) / 1000 * 1000))
      with (t2 - A + (- ((t1 - A) / 1000)) * 1000) by lia.
    rewrite Z.div_add by lia. lia. }
  remember ((t1 - A) / 1000) as e1 eqn:E1.
  remember ((t2 - A) / 1000) as e2 eqn:E2. clear E1 E2.
  rewrite H1. clear H1.
  destruct (Z.leb_spec e1 0) as [He1 | He1]; [reflexivity |].
  rewrite H2. clear H2.
  destruct (Z.leb_spec e2 0) as [He2 | He2]; [lia |].
  destruct (Z.ltb_spec 0 (Z.max 0 (R - e1))) as [Hleft | Hdone].
  - rewrite (tick_running _ (A + e1 * 1000) (Z.max 0 (R - e1)) t2);
      [| reflexivity | reflexivity | lia | reflexivity].
    rewrite Hsecond.
    cbn [date checks carryInSeconds lockedAllocationMinutes isAlarming].
    destruct (Z.eqb_spec (Z.max 0 (R - e1)) 0) as [? | _]; [lia |].
    destruct (Z.leb_spec (e2 - e1) 0) as [Hsame | Hmore].
    + assert (e2 = e1) by lia. subst e2.
      destruct (Z.ltb_spec 0 (Z.max 0 (R - e1))); [| lia].
      destruct (Z.eqb_spec (Z.max 0 (R - e1)) 0); [lia | reflexivity].
    + replace (Z.max 0 (Z.max 0 (R - e1) - (e2 - e1)))
        with (Z.max 0 (R - e2)) by lia.
      replace (A + e1 * 1000 + (e2 - e1) * 1000) with (A + e2 * 1000) by lia.
      reflexivity.
  - assert (Hz1 : Z.max 0 (R - e1) = 0) by lia.
    assert (Hz2 : Z.max 0 (R - e2) = 0) by lia.
    rewrite Hz1, Hz2. cbn [Z.ltb Z.eqb Z.compare].
    by rewrite tick_idle.
Qed.

(** A tick two and a half seconds after the anchor and one seven seconds
    after it, against the single late tick. *)
Lemma tick_coalesces_witness :
  Home.tick (Home.tick (running_record 2700 1771027200000) 1771027202500)
            1771027207000
  = Home.tick (running_record 2700 1771027200000) 1771027207000
  ∧ remainingSeconds
      (Home.tick (running_record 2700 1771027200000) 1771027207000)
    = Some 2693.
Proof.
  split; [| reflexivity].
  apply (tick_coalesces (running_record 2700 1771027200000)
           1771027202500 1771027207000); [| lia].
  intros A [= <-]. lia.
Defined.

(** X2.  A tick ends a countdown only by expiry: when a running record
    is not running after a tick, its remaining time is 0, its alarm is
    on and its anchor is cleared, and the whole seconds since the anchor
    were at least the remaining time.  No tick touches the date, the
    checklist, the carry-in or the locked allocation. *)
Theorem tick_stops_only_by_expiry (prev : DailyRecord) (now : Z) :
  (isRunning prev = true → isRunning (Home.tick prev now) = false →
   remainingSeconds (Home.tick prev now) = Some 0
   ∧ isAlarming (Home.tick prev now) = Some true
   ∧ lastStartedAt (Home.tick prev now) = None
   ∧ ∃ A R : Z, lastStartedAt prev = Some A ∧ remainingSeconds prev = Some R
                ∧ R ≤ (now - A) / 1000)
  ∧ date (Home.tick prev now) = date prev
  ∧ checks (Home.tick prev now) = checks prev
  ∧ carryInSeconds (Home.tick prev now) = carryInSeconds prev
  ∧ lockedAllocationMinutes (Home.tick prev now)
    = lockedAllocationMinutes prev.
Proof.
  destruct (guard_cases prev) as [Hidle | (A & R & Hrun & HA & HA0 & HR)].
  { rewrite (tick_idle prev now Hidle). split; [congruence | done]. }
  rewrite (tick_running prev A R now Hrun HA HA0 HR).
  destruct (Z.leb_spec ((now - A) / 1000) 0) as [He | He];
    [split; [congruence | done] |].
  split; [| done]. intros _. cbn [isRunning remainingSeconds isAlarming
                                  lastStartedAt].
  destruct (Z.ltb_spec 0 (Z.max 0 (R - (now - A) / 1000))) as [| Hzero];
    [discriminate |].
  intros _. replace (Z.max 0 (R - (now - A) / 1000)) with 0 by lia.
  repeat split. exists A, R. repeat split; [done | done | lia].
Qed.

Lemma tick_stops_only_by_expiry_witness :
  remainingSeconds (Home.tick (running_record 5 1771027200000) 1771027209000)
    = Some 0
  ∧ isAlarming (Home.tick (running_record 5 1771027200000) 1771027209000)
    = Some true.
Proof.
  destruct (tick_stops_only_by_expiry (running_record 5 1771027200000)
              1771027209000) as [Hstop _].
  destruct (Hstop eq_refl eq_refl) as (Hrem & Halarm & _).
  by split.
Defined.

Section Commands.

Import Home.

(** What no command changes, and what none changes once it is set. *)
Lemma step_frame (today : DailyRecord) (c : command) :
  date (step today c) = date today
  ∧ carryInSeconds (step today c) = carryInSeconds today
  ∧ (∀ a : Z, lockedAllocationMinutes today = Some a →
       lockedAllocationMinutes (step today c) = Some a).
Proof.
  destruct c as [alloc skip now | now | now | alloc | key]; simpl.
  - unfold startTimer.
    destruct (negb skip && negb (every_check (checks today))); [done |].
    match goal with |- context [?b <=? 0] => destruct (b <=? 0) end;
      [done |].
    repeat split. intros a Ha. simpl. by rewrite Ha.
  - destruct (tick_frame today now) as (-> & _ & -> & ->). done.
  - unfold pauseTimer.
    destruct (negb (isRunning today) || is_null (remainingSeconds today)
              || falsy (lastStartedAt today)); [done |].
    by destruct (remainingSeconds today), (lastStartedAt today).
  - repeat split. intros a Ha. simpl. by rewrite Ha.
  - unfold toggleCheck. by destruct (isRunning today).
Qed.

End Commands.

(** X3.  Whatever the commands and their order, a record keeps its date
    and its carry-in, and its allocation once it is locked: checklist
    items toggled after the first start do not change the minutes of
    the day. *)
Theorem run_keeps_date_carry_and_lock
    (today : DailyRecord) (cs : list Home.command) :
  date (Home.run today cs) = date today
  ∧ carryInSeconds (Home.run today cs) = carryInSeconds today
  ∧ (∀ a : Z, lockedAllocationMinutes today = Some a →
       lockedAllocationMinutes (Home.run today cs) = Some a).
Proof.
  revert today. induction cs as [| c cs IH]; intros today; [done |].
  destruct (step_frame today c) as (Hdate & Hcarry & Hlock).
  destruct (IH (Home.step today c)) as (Hdate' & Hcarry' & Hlock').
  simpl. rewrite Hdate', Hcarry', Hdate, Hcarry. repeat split.
  intros a Ha. apply Hlock', Hlock, Ha.
Qed.

(** 45 minutes are locked by the start; a pause, a cleared item and a
    new start later the day still has its 45 minutes. *)
Lemma run_keeps_date_carry_and_lock_witness :
  let cs := [Home.Pause 1771027260000; Home.ToggleCheck Prep;
             Home.Start 15 true 1771027300000; Home.Tick 1771027301000] in
  lockedAllocationMinutes
    (Home.run (running_record 2700 1771027200000) cs) = Some 45
  ∧ remainingSeconds
      (Home.run (running_record 2700 1771027200000) cs) = Some 2639.
Proof.
  split; [| reflexivity].
  destruct (run_keeps_date_carry_and_lock (running_record 2700 1771027200000)
              [Home.Pause 1771027260000; Home.ToggleCheck Prep;
               Home.Start 15 true 1771027300000; Home.Tick 1771027301000])
    as (_ & _ & Hlock).
  apply Hlock. reflexivity.
Defined.

(** X4.  A pause and a start at the same instant, on a running record
    whose countdown is not exhausted.  The pause leaves the remaining
    time less the whole seconds since the anchor.  A start that passes
    the confirmation ([skipConfirm], or every item checked) then runs
    from that remaining time, anchored at the instant of the start: a
    tick at that instant would have left the same remaining time with
    the anchor at the last whole second, so the fraction of a second
    run since then is not counted.  A start that does not pass the
    confirmation (the resume button over a checklist with an item
    unchecked) leaves the record paused. *)
Theorem pause_then_start
    (today : DailyRecord) (A R now alloc : Z) (skip : bool) :
  isRunning today = true → remainingSeconds today = Some R →
  lastStartedAt today = Some A → A ≠ 0 →
  (now - A) / 1000 < R →
  let paused := Home.pauseTimer today now in
  let resumed := Home.startTimer paused alloc skip now in
  remainingSeconds paused = Some (R - (now - A) / 1000)
  ∧ isRunning paused = false
  ∧ (skip = true ∨ every_check (checks today) = true →
     remainingSeconds resumed = Some (R - (now - A) / 1000)
     ∧ isRunning resumed = true
     ∧ lastStartedAt resumed = Some now
     ∧ isAlarming resumed = Some false
     ∧ (0 < (now - A) / 1000 →
        remainingSeconds (Home.tick today now) = remainingSeconds resumed
        ∧ lastStartedAt (Home.tick today now)
          = Some (A + (now - A) / 1000 * 1000)))
  ∧ (skip = false → every_check (checks today) = false → resumed = paused).
Proof.
  intros Hrun HR HA HA0 Hleft paused resumed. subst resumed paused.
  rewrite (pauseTimer_running today R A now Hrun HR HA HA0).
  set (e := (now - A) / 1000) in *.
  replace (Z.max 0 (R - e)) with (R - e) by lia.
  do 2 (split; [reflexivity |]).
  unfold Home.startTimer. cbn [checks remainingSeconds
    lockedAllocationMinutes carryInSeconds]. split.
  - intros Hconfirm.
    assert (negb skip && negb (every_check (checks today)) = false) as ->
      by (destruct Hconfirm as [-> | ->]; [done | by destruct skip]).
    destruct (Z.leb_spec (R - e) 0); [lia |]. simpl.
    do 4 (split; [reflexivity |]).
    intros Hpos.
    by rewrite (tick_partial today R A e now) by (auto; lia).
  - by intros -> ->.
Qed.

Lemma pause_then_start_witness :
  let today := running_record 2700 1771027200000 in
  let resumed :=
    Home.startTimer (Home.pauseTimer today 1771027207900) 15 false
      1771027207900 in
  remainingSeconds resumed = Some (2700 - 7)
  ∧ lastStartedAt resumed = Some 1771027207900
  ∧ lastStartedAt (Home.tick today 1771027207900) = Some 1771027207000.
Proof.
  destruct (pause_then_start (running_record 2700 1771027200000)
              1771027200000 2700 1771027207900 15 false
              eq_refl eq_refl eq_refl ltac:(lia) eq_refl)
    as (_ & _ & Hpassed & _).
  destruct (Hpassed (or_intror eq_refl))
    as (Hrem & _ & Hanchor & _ & Htick).
  destruct (Htick eq_refl) as [_ Htick_anchor].
  repeat split; assumption.
Defined.

(** X5.  A day that was ended stays ended: after [finishTimer] the
    remaining time is 0, the record neither runs nor alarms and has no
    anchor, its allocation is locked, and no sequence of commands
    changes any of that. *)
Theorem finishTimer_is_final
    (today : DailyRecord) (alloc : Z) (cs : list Home.command) :
  let ended := Home.finishTimer today alloc in
  let later := Home.run ended cs in
  remainingSeconds later = Some 0
  ∧ isRunning later = false
  ∧ isAlarming later = Some false
  ∧ lastStartedAt later = None
  ∧ lockedAllocationMinutes later
    = Some (Home.grantedMinutes today alloc).
Proof.
  intros ended later. subst later.
  assert (Hended : remainingSeconds ended = Some 0 ∧ isRunning ended = false
                   ∧ isAlarming ended = Some false
                   ∧ lastStartedAt ended = None
                   ∧ lockedAllocationMinutes ended
                     = Some (Home.grantedMinutes today alloc)) by done.
  clearbody ended. revert ended Hended.
  induction cs as [| c cs IH]; intros r Hr; [exact Hr |].
  simpl. apply IH. destruct Hr as (Hrem & Hrun & Halarm & Hanchor & Hlock).
  destruct c as [a skip now | now | now | a | key]; simpl.
  - unfold Home.startTimer.
    destruct (negb skip && negb (every_check (checks r))); [done |].
    rewrite Hrem. simpl. done.
  - rewrite tick_idle by (by rewrite Hrun); done.
  - unfold Home.pauseTimer. rewrite Hrun. done.
  - unfold Home.finishTimer; simpl. rewrite Hlock. done.
  - unfold Home.toggleCheck. rewrite Hrun. simpl. done.
Qed.

(** X6.  While the countdown is not running, toggling an item twice
    restores the record, a toggle changes the item it names and no
    other, and no toggle touches the timer. *)
Theorem toggleCheck_twice (today : DailyRecord) (key : CheckKey) :
  isRunning today = false →
  Home.toggleCheck (Home.toggleCheck today key) key = today
  ∧ Home.check (checks (Home.toggleCheck today key)) key
    = negb (Home.check (checks today) key)
  ∧ (∀ k : CheckKey,
       k ≠ key →
       Home.check (checks (Home.toggleCheck today key)) k
       = Home.check (checks today) k)
  ∧ remainingSeconds (Home.toggleCheck today key) = remainingSeconds today
  ∧ lockedAllocationMinutes (Home.toggleCheck today key)
    = lockedAllocationMinutes today
  ∧ lastStartedAt (Home.toggleCheck today key) = lastStartedAt today
  ∧ isAlarming (Home.toggleCheck today key) = isAlarming today.
Proof.
  intros Hrun. unfold Home.toggleCheck. rewrite Hrun. simpl.
  split; [| split; [| split; [| done]]].
  - destruct today as [? [] ? ? ? ? ? ?]. simpl in *. subst.
    destruct key; simpl; by rewrite negb_involutive.
  - by destruct key.
  - intros k Hk. by destruct k, key.
Qed.

Lemma toggleCheck_twice_witness :
  Home.toggleCheck (Home.toggleCheck (fresh_record 0) Sleep) Sleep
  = fresh_record 0
  ∧ sleep (checks (Home.toggleCheck (fresh_record 0) Sleep)) = true
  ∧ prep (checks (Home.toggleCheck (fresh_record 0) Sleep)) = false.
Proof.
  destruct (toggleCheck_twice (fresh_record 0) Sleep eq_refl)
    as (Htwice & Hitem & Hother & _).
  split; [exact Htwice |].
  split; [exact Hitem | exact (Hother Prep ltac:(discriminate))].
Defined.

(** X7.  The countdown starts from the seconds the page shows: when
    the start button is enabled, a start that passes the confirmation
    gives a running record whose remaining time is the time shown
    before, anchored at the time of the start, with the granted minutes
    locked and the alarm off; when the button is disabled, and when the
    confirmation is still due, the record is left as it is. *)
Theorem startTimer_starts_from_shown_time
    (today : DailyRecord) (alloc : Z) (skip : bool) (now : Z) :
  (Home.canStart today alloc = true →
   negb skip && negb (every_check (checks today)) = false →
   Home.startTimer today alloc skip now = {|
     date := date today;
     checks := checks today;
     carryInSeconds := carryInSeconds today;
     lockedAllocationMinutes := Some (Home.grantedMinutes today alloc);
     remainingSeconds := Some (Home.shownSeconds today alloc);
     isRunning := true;
     isAlarming := Some false;
     lastStartedAt := Some now;
   |})
  ∧ (Home.canStart today alloc = false →
     Home.startTimer today alloc skip now = today)
  ∧ (negb skip && negb (every_check (checks today)) = true →
     Home.startTimer today alloc skip now = today).
Proof.
  unfold Home.canStart, Home.shownSeconds, Home.initialSeconds,
    Home.grantedMinutes, Home.startTimer.
  split; [| split].
  - intros Hcan ->. apply Z.ltb_lt in Hcan.
    destruct (remainingSeconds today) as [R |];
      match goal with |- context [?b <=? 0] =>
        destruct (Z.leb_spec b 0); [lia | reflexivity] end.
  - intros Hcan. apply Z.ltb_ge in Hcan.
    destruct (negb skip && negb (every_check (checks today))); [done |].
    destruct (remainingSeconds today) as [R |];
      match goal with |- context [?b <=? 0] =>
        destruct (Z.leb_spec b 0); [reflexivity | lia] end.
  - by intros ->.
Qed.

(** A fresh day with 15 minutes and a carry-in of 600 seconds: the
    clock shows 1500 seconds and the start counts down from them. *)
Lemma startTimer_starts_from_shown_time_witness :
  remainingSeconds (Home.startTimer (fresh_record 600) 15 true 1771027200000)
    = Some 1500
  ∧ Home.startTimer (fresh_record 600) 15 false 1771027200000
    = fresh_record 600.
Proof.
  destruct (startTimer_starts_from_shown_time (fresh_record 600) 15 true
              1771027200000) as [Hstart _].
  destruct (startTimer_starts_from_shown_time (fresh_record 600) 15 false
              1771027200000) as (_ & _ & Hask).
  split; [by rewrite (Hstart eq_refl eq_refl) | exact (Hask eq_refl)].
Defined.

(** ** Further properties of the records of the days *)

(** X8.  The record of a day is made once: when [createRecordForDate]
    finds no entry for a key and its result is stored under that key,
    a later call for the key returns the same record, whatever the
    settings and the other entries have become in between. *)
Theorem createRecordForDate_once
    (dateKey : string) (records later : gmap string DailyRecord)
    (settings settings' : Home.Settings) :
  records !! dateKey = None →
  let made := Home.createRecordForDate dateKey records settings in
  Home.createRecordForDate dateKey (<[dateKey := made]> later) settings'
  = made
  ∧ 0 ≤ carryInSeconds made
  ∧ invariant made.
Proof.
  intros Hnone made.
  pose proof (createRecordForDate_fresh dateKey records settings Hnone)
    as Hfresh.
  pose proof (createRecordForDate_carry dateKey records settings Hnone)
    as Hcarry.
  fold made in Hfresh, Hcarry.
  split; [| split].
  - unfold Home.createRecordForDate at 1. rewrite lookup_insert_eq.
    rewrite Hfresh at 2. rewrite Hfresh. reflexivity.
  - rewrite Hcarry.
    destruct (records !! Home.getYesterdayKey dateKey) as [y |]; [| done].
    destruct (remainingSeconds y) as [s |]; [| done].
    destruct (Home.carryOverEnabled settings && (0 <? s)) eqn:Hon; [| done].
    apply andb_prop in Hon as [_ Hpos].
    destruct (Z.ltb_spec 0 s); [lia | discriminate].
  - rewrite Hfresh. unfold invariant; simpl.
    repeat split; intros; congruence.
Qed.

Lemma createRecordForDate_once_witness :
  let records : gmap string DailyRecord :=
    {["2026-02-13" := yesterday_record (Some 600)]} in
  let made :=
    Home.createRecordForDate "2026-02-14" records (carry_settings true) in
  carryInSeconds
    (Home.createRecordForDate "2026-02-14"
       (<["2026-02-14" := made]> ∅) (carry_settings false)) = 600.
Proof.
  intros records made.
  destruct (createRecordForDate_once "2026-02-14" records ∅
              (carry_settings true) (carry_settings false) eq_refl)
    as [Honce _].
  fold made in Honce. by rewrite Honce.
Defined.



(** The civil date of a supported local time. *)
Lemma local_date (t : Z) :
  supported_time t →
  let '(y, m, d) := civil_from_days (Day t) in
  100 ≤ y ≤ 9999 ∧ valid_date y m d ∧ days_from_civil y m d = Day t.
Proof.
  intros [Hlo Hhi].
  assert (HD : -1 ≤ Day t < 2932897)
    by (unfold Day, msPerDay; Z.div_mod_to_equations; lia).
  pose proof (civil_from_days_valid (Day t)) as Hvalid.
  destruct (civil_from_days (Day t)) as [[y m] d].
  destruct Hvalid as [Hv Hdays]. split; [| by split].
  destruct Hv as [Hm Hd]. pose proof (days_in_month_le y m Hm) as Hdim.
  rewrite <- Hdays in HD. unfold days_from_civil in HD.
  clear Hdays. set (dim := days_in_month y m) in *. clearbody dim.
  destruct (Z.leb_spec m 2); Z.div_mod_to_equations; lia.
Qed.

(** X10.  The key of yesterday is the key of the same time the day
    before: for every instant from 1970 to the end of the year 9999 in
    Tokyo, [getYesterdayKey] of today's key is the key [getTodayKey]
    gave 24 hours earlier, and it is another key than today's.  On a
    machine whose zone has kept one offset, whichever it is, the
    settings page computes the same key from it; a zone with a
    transition can make it differ ([getYesterdayKey_skipped_day]). *)
Theorem getYesterdayKey_of_today (now : Z) :
  supported_time (now + Home.TOKYO_OFFSET_MINUTES * 60000) →
  Home.getYesterdayKey (Home.getTodayKey now)
  = Home.getTodayKey (now - msPerDay)
  ∧ Home.getYesterdayKey (Home.getTodayKey now) ≠ Home.getTodayKey now
  ∧ ∀ tz : Z,
      SettingsPage.getYesterdayKey (fixed_offset tz) (Home.getTodayKey now)
      = Home.getYesterdayKey (Home.getTodayKey now).
Proof.
  intros Hnow. pose proof (local_date _ Hnow) as Hdate.
  unfold Home.getTodayKey, Home.toDateKeyInTokyo.
  replace (Day (now - msPerDay + Home.TOKYO_OFFSET_MINUTES * 60000))
    with (Day (now + Home.TOKYO_OFFSET_MINUTES * 60000) - 1).
  2: { unfold Day. replace (now - msPerDay + Home.TOKYO_OFFSET_MINUTES * 60000)
         with (now + Home.TOKYO_OFFSET_MINUTES * 60000 + (-1) * msPerDay)
         by lia.
       rewrite Z.div_add by done. lia. }
  destruct (civil_from_days (Day (now + Home.TOKYO_OFFSET_MINUTES * 60000)))
    as [[y m] d].
  destruct Hdate as (Hy & Hv & <-).
  rewrite getYesterdayKey_day_before, civil_day_before by assumption.
  split; [reflexivity |]. split; [by apply day_before_key_differs |].
  intros tz. apply getYesterdayKey_settings_day_before; [lia | assumption].
Qed.

Lemma getYesterdayKey_of_today_witness :
  Home.getYesterdayKey (Home.getTodayKey sample_instant)
  = Home.getTodayKey (sample_instant - msPerDay)
  ∧ Home.getTodayKey (sample_instant - msPerDay) = "2026-02-14"
  ∧ SettingsPage.getYesterdayKey (fixed_offset (-480))
      (Home.getTodayKey sample_instant)
    = Home.getYesterdayKey (Home.getTodayKey sample_instant).
Proof.
  destruct (getYesterdayKey_of_today sample_instant) as (Hkey & _ & Hpages).
  { unfold supported_time, sample_instant, Home.TOKYO_OFFSET_MINUTES. lia. }
  split; [exact Hkey |]. split; [reflexivity | apply Hpages].
Defined.

(** X11.  Today's key reads back as the Tokyo date: for an instant
    from 1970 to the end of the year 9999 in Tokyo,
    [fromDateKeyToUtcDate] of today's key is the midnight (UTC) that
    opens the day of the Tokyo calendar the instant falls in, and
    [isWeekend] of the key is the test of that day, not of the day in
    UTC, for Saturday or Sunday. *)
Theorem today_key_reads_back (now : Z) :
  supported_time (now + Home.TOKYO_OFFSET_MINUTES * 60000) →
  let tokyo_day := Day (now + Home.TOKYO_OFFSET_MINUTES * 60000) in
  Home.fromDateKeyToUtcDate (Home.getTodayKey now)
  = Some (tokyo_day * msPerDay)
  ∧ Home.isWeekend (Home.getTodayKey now)
    = (((tokyo_day + 4) mod 7 =? 0) || ((tokyo_day + 4) mod 7 =? 6)).
Proof.
  intros Hnow tokyo_day. pose proof (local_date _ Hnow) as Hdate.
  fold tokyo_day in Hdate.
  assert (Hread : Home.fromDateKeyToUtcDate (Home.getTodayKey now)
                  = Some (tokyo_day * msPerDay)).
  { unfold Home.getTodayKey, Home.toDateKeyInTokyo. fold tokyo_day.
    destruct (civil_from_days tokyo_day) as [[y m] d].
    destruct Hdate as (Hy & Hv & <-).
    by apply fromDateKeyToUtcDate_key. }
  split; [exact Hread |].
  unfold Home.isWeekend. rewrite Hread. unfold WeekDay.
  by rewrite Day_of_midnight.
Qed.

(** Friday afternoon in Greenwich is Saturday morning in Tokyo. *)
Lemma today_key_reads_back_witness :
  let friday_16h_utc := sample_instant - msPerDay in
  (Day friday_16h_utc + 4) mod 7 = 5
  ∧ Home.isWeekend (Home.getTodayKey friday_16h_utc) = true.
Proof.
  intros friday_16h_utc. split; [reflexivity |].
  destruct (today_key_reads_back friday_16h_utc) as [_ Hweekend].
  - unfold supported_time, friday_16h_utc, sample_instant, msPerDay,
      Home.TOKYO_OFFSET_MINUTES. lia.
  - rewrite Hweekend. reflexivity.
Defined.

(** X12.  "Reset today" makes the record of today anew.  For a local
    time from 1970 to the end of the year 9999, the entry the reset
    writes under today's key (today in the zone of the machine) is the
    record [createRecordForDate] of the main page makes for that key
    when the slot has no entry for it, under the same carry-over
    setting; every other entry is left as it is; a second reset changes
    nothing. *)
Theorem resetTodayRecord_recreates
    (settings : SettingsPage.Settings) (main : Home.Settings)
    (records : gmap string DailyRecord) (now tz : Z) :
  supported_time (now + tz * 60000) →
  Home.carryOverEnabled main = SettingsPage.carryOverEnabled settings →
  let key := SettingsPage.getTodayKey now tz in
  let after := SettingsPage.resetTodayRecord settings records now tz in
  after !! key
  = Some (Home.createRecordForDate key (delete key records) main)
  ∧ (∀ k : string, k ≠ key → after !! k = records !! k)
  ∧ SettingsPage.resetTodayRecord settings after now tz = after.
Proof.
  intros Hnow Hcarry key after.
  pose proof (local_date _ Hnow) as Hdate.
  assert (Hkeys : SettingsPage.getYesterdayKey (fixed_offset tz) key
                  = Home.getYesterdayKey key
                  ∧ SettingsPage.getYesterdayKey (fixed_offset tz) key ≠ key).
  { subst key. unfold SettingsPage.getTodayKey.
    destruct (civil_from_days (Day (now + tz * 60000))) as [[y m] d].
    destruct Hdate as (Hy & Hv & _).
    rewrite getYesterdayKey_day_before, getYesterdayKey_settings_day_before
      by (assumption || lia).
    split; [reflexivity | by apply day_before_key_differs]. }
  destruct Hkeys as [Hsame Hdiffers].
  subst after. unfold SettingsPage.resetTodayRecord. fold key.
  split; [| split].
  - rewrite lookup_insert_eq. f_equal.
    unfold Home.createRecordForDate. rewrite lookup_delete_eq.
    rewrite <- Hsame, lookup_delete_ne by congruence.
    by rewrite Hcarry.
  - intros k Hk. by rewrite lookup_insert_ne.
  - rewrite lookup_insert_ne by congruence. apply insert_insert_eq.
Qed.

(** A reset on the 14th (in Tokyo) with carry-over enabled, after a
    13th that ended with 600 seconds left. *)
Lemma resetTodayRecord_recreates_witness :
  let settings := (SettingsPage.toggleCarry SettingsPage.DEFAULT_SETTINGS true).1 in
  let records : gmap string DailyRecord :=
    {["2026-02-13" := yesterday_record (Some 600);
      "2026-02-14" := unflagged_record]} in
  SettingsPage.resetTodayRecord settings records (sample_instant - msPerDay)
    Home.TOKYO_OFFSET_MINUTES !! "2026-02-14"
  = Some (fresh_record 600).
Proof.
  intros settings records.
  destruct (resetTodayRecord_recreates settings (carry_settings true) records
              (sample_instant - msPerDay) Home.TOKYO_OFFSET_MINUTES)
    as [Hnew _].
  - unfold supported_time, sample_instant, msPerDay,
      Home.TOKYO_OFFSET_MINUTES. lia.
  - reflexivity.
  - assert (Hkey : SettingsPage.getTodayKey (sample_instant - msPerDay)
                     Home.TOKYO_OFFSET_MINUTES = "2026-02-14") by reflexivity.
    rewrite Hkey in Hnew. rewrite Hnew. reflexivity.
Defined.

(** ** The clock *)

Section Clock.

Lemma padded_any (n : Z) :
  0 ≤ n →
  Number_of_text (padStart2 (decimal n)) = Some n
  ∧ all_digits (padStart2 (decimal n)) = true.
Proof.
  intros Hn. destruct (decimal_spec n Hn) as [Hnum Hall].
  unfold padStart2.
  destruct (decimal n) as [| c [| c' rest]] eqn:Hdec; [done | | by split].
  cbn [String.length].
  change ("0" ++ String c "")%string with (String "0" (String c "")).
  unfold Number_of_text in *. cbn [all_digits] in *.
  rewrite andb_true_r in Hall. rewrite Hall in *. simpl in *.
  split; [exact Hnum | reflexivity].
Qed.

(** Two texts of digits before a colon are the same when the whole
    texts are. *)
Lemma digits_before_colon (a a' b b' : string) :
  all_digits a = true → all_digits a' = true →
  (a ++ ":" ++ b = a' ++ ":" ++ b')%string → a = a' ∧ b = b'.
Proof.
  revert a'. induction a as [| c a IH]; intros [| c' a'] Ha Ha' Heq.
  - change (String ":" b = String ":" b') in Heq. by injection Heq as ->.
  - change (String ":" b = String c' (a' ++ ":" ++ b'))%string in Heq.
    injection Heq as <- _. discriminate Ha'.
  - change (String c (a ++ ":" ++ b) = String ":" b')%string in Heq.
    injection Heq as -> _. discriminate Ha.
  - change (String c (a ++ ":" ++ b) = String c' (a' ++ ":" ++ b'))%string
      in Heq.
    injection Heq as -> Heq.
    cbn [all_digits] in Ha, Ha'.
    apply andb_prop in Ha as [_ Ha]. apply andb_prop in Ha' as [_ Ha'].
    destruct (IH a' Ha Ha' Heq) as [-> ->]. done.
Qed.

Lemma length_of_append (a b : string) :
  String.length (a ++ b)%string = (String.length a + String.length b)%nat.
Proof.
  induction a as [| c a IH]; [reflexivity |].
  change (S (String.length (a ++ b)%string)
          = S (String.length a + String.length b)).
  by rewrite IH.
Qed.

End Clock.

(** X13.  The clock never shows a negative time and shows each time its
    own way: [formatClock] of a time that is 0 or negative is "00:00",
    two times that are not negative and print alike are the same time,
    and a time under 100 minutes prints as five characters. *)
Theorem formatClock_faithful (a b : Z) :
  (a ≤ 0 → Home.formatClock a = "00:00")
  ∧ (0 ≤ a → 0 ≤ b → Home.formatClock a = Home.formatClock b → a = b)
  ∧ (0 ≤ a < 6000 → String.length (Home.formatClock a) = 5%nat).
Proof.
  split; [| split].
  - intros Ha. unfold Home.formatClock.
    by replace (Z.max 0 a) with 0 by lia.
  - intros Ha Hb. unfold Home.formatClock.
    replace (Z.max 0 a) with a by lia. replace (Z.max 0 b) with b by lia.
    intros Heq.
    destruct (padded_any (a / 60)) as [Hma Hda]; [apply Z.div_pos; lia |].
    destruct (padded_any (b / 60)) as [Hmb Hdb]; [apply Z.div_pos; lia |].
    destruct (padded_any (a mod 60)) as [Hsa _];
      [Z.div_mod_to_equations; lia |].
    destruct (padded_any (b mod 60)) as [Hsb _];
      [Z.div_mod_to_equations; lia |].
    apply digits_before_colon in Heq as [Hmin Hsec]; [| done | done].
    rewrite Hmin in Hma. rewrite Hsec in Hsa.
    assert (a / 60 = b / 60) by congruence.
    assert (a mod 60 = b mod 60) by congruence.
    Z.div_mod_to_equations. lia.
  - intros Ha. unfold Home.formatClock.
    replace (Z.max 0 a) with a by lia.
    assert (Hmin : 0 ≤ a / 60 ≤ 99) by (Z.div_mod_to_equations; lia).
    assert (Hsec : 0 ≤ a mod 60 ≤ 59) by (Z.div_mod_to_equations; lia).
    assert (Htwo : ∀ n : Z, 0 ≤ n ≤ 99 →
              String.length (padStart2 (decimal n)) = 2%nat).
    { intros n Hn.
      assert (Hcases : ∃ k : nat, n = Z.of_nat k ∧ (k < 100)%nat)
        by (exists (Z.to_nat n); lia).
      destruct Hcases as (k & -> & Hk).
      do 100 (destruct k as [| k]; [reflexivity |]). lia. }
    rewrite !length_of_append, !Htwo by lia. reflexivity.
Qed.

Lemma formatClock_faithful_witness :
  Home.formatClock (-3) = "00:00"
  ∧ Home.formatClock 2693 = "44:53"
  ∧ (∀ b : Z, 0 ≤ b → Home.formatClock 2693 = Home.formatClock b → b = 2693)
  ∧ Home.formatClock 10800 = "180:00".
Proof.
  destruct (formatClock_faithful (-3) 0) as [Hneg _].
  split; [apply Hneg; lia |]. split; [reflexivity |].
  split; [| reflexivity].
  intros b Hb Heq.
  destruct (formatClock_faithful 2693 b) as (_ & Hinj & _).
  symmetry. apply Hinj; [lia | exact Hb | exact Heq].
Defined.

(** ** Further properties of the settings *)

Section SettingsRoundTrip.

#[local] Arguments Math_min : simpl never.
#[local] Arguments Math_max : simpl never.
#[local] Arguments Math_round : simpl never.
#[local] Arguments Boolean : simpl never.
#[local] Arguments test_four_digits : simpl never.

Lemma Math_round_int (n : Z) : Math_round (int n) = int n.
Proof.
  unfold Math_round, int. f_equal. f_equal.
  unfold Qfloor, Qplus, inject_Z. cbn [Qnum Qden].
  change (Z.pos (1 * 2)) with 2. Z.div_mod_to_equations. lia.
Qed.

(** The clamp of the loaders leaves a whole number within the range as
    it is. *)
Lemma clamp_of_in_range (lo hi : Z) (x : number) :
  in_range lo hi x →
  Math_max (int lo) (Math_min (int hi) (Math_round x)) = x.
Proof.
  intros (n & -> & Hn).
  rewrite Math_round_int, Math_min_int, Math_max_int. f_equal. lia.
Qed.

(** The clamp of a number that is not NaN. *)
Lemma clamp_of_number (lo hi : Z) (x : number) :
  lo ≤ hi → x ≠ NaN →
  in_range lo hi (Math_max (int lo) (Math_min (int hi) (Math_round x))).
Proof.
  intros Hle Hx. destruct x as [q | | |]; [| | | done].
  - apply (clamp_in_range lo hi (JFin q) Hle).
  - apply (clamp_in_range lo hi (JInf false) Hle).
  - apply (clamp_in_range lo hi (JInf true) Hle).
Qed.

(** The clamp of the loaders and of the editing command, in whole
    numbers. *)
Lemma clamp_nearest (lo hi : Z) (x : number) :
  lo ≤ hi → x ≠ NaN →
  ∃ n : Z, nearest_within lo hi x = Some n
           ∧ Math_max (int lo) (Math_min (int hi) (Math_round x)) = int n.
Proof.
  intros Hle Hx. destruct x as [q | | |]; [| | | done].
  - eexists. split; [reflexivity |].
    unfold Math_round. by rewrite Math_min_int, Math_max_int.
  - exists hi. split; [reflexivity |].
    change (Math_min (int hi) (Math_round PosInf)) with (int hi).
    rewrite Math_max_int. f_equal. lia.
  - by exists lo.
Qed.

Lemma field_loads_as (lo hi : Z) (default : number) (stored : value) :
  lo ≤ hi →
  loads_as lo hi default stored
    match stored with
    | Some (JNum x) =>
        Math_max (int lo) (Math_min (int hi) (Math_round (number_of x)))
    | _ => default
    end.
Proof.
  intros Hle. destruct stored as [[| | x | | |] |]; try reflexivity.
  apply clamp_nearest; [exact Hle | by destruct x as [| []]].
Qed.

(** Both loaders on a parsed value, number by number. *)
Lemma loaded_numbers (parsed : json) :
  parsed ≠ JNull →
  let main := Home.loadSettings (Parsed parsed) in
  let page := SettingsPage.loadSettings (Parsed parsed) in
  loads_as 0 100 (Home.alarmVolume Home.DEFAULT_SETTINGS)
    (prop parsed "alarmVolume") (Home.alarmVolume main)
  ∧ loads_as 1 180 (Home.fullCompletionMinutes Home.DEFAULT_SETTINGS)
      (prop parsed "fullCompletionMinutes") (Home.fullCompletionMinutes main)
  ∧ loads_as 1 180 (Home.fallbackMinutes Home.DEFAULT_SETTINGS)
      (prop parsed "fallbackMinutes") (Home.fallbackMinutes main)
  ∧ loads_as 1 180 (Home.fullCompletionMinutesWeekend Home.DEFAULT_SETTINGS)
      (prop parsed "fullCompletionMinutesWeekend")
      (Home.fullCompletionMinutesWeekend main)
  ∧ loads_as 1 180 (Home.fallbackMinutesWeekend Home.DEFAULT_SETTINGS)
      (prop parsed "fallbackMinutesWeekend")
      (Home.fallbackMinutesWeekend main)
  ∧ SettingsPage.alarmVolume page = Home.alarmVolume main
  ∧ SettingsPage.fullCompletionMinutes page = Home.fullCompletionMinutes main
  ∧ SettingsPage.fallbackMinutes page = Home.fallbackMinutes main.
Proof.
  intros Hnull main page. subst main page.
  destruct parsed; [done | ..];
    cbn [Home.loadSettings SettingsPage.loadSettings
         Home.alarmVolume Home.fullCompletionMinutes Home.fallbackMinutes
         Home.fullCompletionMinutesWeekend Home.fallbackMinutesWeekend
         SettingsPage.alarmVolume SettingsPage.fullCompletionMinutes
         SettingsPage.fallbackMinutes];
    (do 5 (split; [apply field_loads_as; lia |])); repeat split.
Qed.

Lemma stringify_in_range (lo hi : Z) (x : number) :
  in_range lo hi x → ∃ q : Q, stringify_number x = JNum (JFin q) ∧ Fin q = x.
Proof. intros (n & -> & _). by eexists. Qed.

(** Loading what [saveSettings] wrote, field by field. *)
Lemma load_saved (s : SettingsPage.Settings) :
  well_formed s →
  SettingsPage.loadSettings (SettingsPage.saveSettings s) = s.
Proof.
  intros (Hvol & Hfull & Hfall & Hpin).
  destruct s as [carry pin tone vol full fall]. cbn [SettingsPage.alarmVolume
    SettingsPage.fullCompletionMinutes SettingsPage.fallbackMinutes
    SettingsPage.parentPin] in *.
  destruct (stringify_in_range _ _ _ Hvol) as (qv & Hqv & <-).
  destruct (stringify_in_range _ _ _ Hfull) as (qf & Hqf & <-).
  destruct (stringify_in_range _ _ _ Hfall) as (qb & Hqb & <-).
  unfold SettingsPage.saveSettings, SettingsPage.stringify,
    SettingsPage.loadSettings.
  cbn [SettingsPage.carryOverEnabled SettingsPage.parentPin
       SettingsPage.alarmTone SettingsPage.alarmVolume
       SettingsPage.fullCompletionMinutes SettingsPage.fallbackMinutes].
  rewrite Hqv, Hqf, Hqb.
  cbn [prop lookup_field String.eqb Ascii.eqb Bool.eqb].
  rewrite Hpin. cbn [number_of].
  rewrite (clamp_of_in_range 0 100 (Fin qv) Hvol),
    (clamp_of_in_range 1 180 (Fin qf) Hfull),
    (clamp_of_in_range 1 180 (Fin qb) Hfall).
  f_equal. by destruct tone.
Qed.

(** What a load returns can be saved and loaded again. *)
Lemma loaded_well_formed (raw : slot) :
  well_formed (SettingsPage.loadSettings raw).
Proof.
  destruct (loadSettings_settings_page_in_range raw) as (Hvol & Hfull & Hfall).
  split; [exact Hvol |]. split; [exact Hfull |]. split; [exact Hfall |].
  destruct raw as [| | parsed]; [done | done |].
  destruct parsed; [done | ..]; cbn [SettingsPage.loadSettings
    SettingsPage.parentPin];
    match goal with |- context [prop ?j "parentPin"] =>
      destruct (prop j "parentPin") as [pin |] end; try done;
    by destruct (Boolean (Some pin) && test_four_digits pin) eqn:Hpass.
Qed.

(** The main page loading what [saveSettings] wrote. *)
Lemma main_load_saved (s : SettingsPage.Settings) :
  well_formed s →
  let main := Home.loadSettings (SettingsPage.saveSettings s) in
  Home.carryOverEnabled main = SettingsPage.carryOverEnabled s
  ∧ Home.parentPin main = SettingsPage.parentPin s
  ∧ Home.alarmVolume main = SettingsPage.alarmVolume s
  ∧ Home.fullCompletionMinutes main = SettingsPage.fullCompletionMinutes s
  ∧ Home.fallbackMinutes main = SettingsPage.fallbackMinutes s.
Proof.
  intros (Hvol & Hfull & Hfall & Hpin).
  destruct s as [carry pin tone vol full fall]. cbn [SettingsPage.alarmVolume
    SettingsPage.fullCompletionMinutes SettingsPage.fallbackMinutes
    SettingsPage.parentPin SettingsPage.carryOverEnabled] in *.
  destruct (stringify_in_range _ _ _ Hvol) as (qv & Hqv & <-).
  destruct (stringify_in_range _ _ _ Hfull) as (qf & Hqf & <-).
  destruct (stringify_in_range _ _ _ Hfall) as (qb & Hqb & <-).
  unfold SettingsPage.saveSettings, SettingsPage.stringify,
    Home.loadSettings.
  cbn [SettingsPage.carryOverEnabled SettingsPage.parentPin
       SettingsPage.alarmTone SettingsPage.alarmVolume
       SettingsPage.fullCompletionMinutes SettingsPage.fallbackMinutes].
  rewrite Hqv, Hqf, Hqb.
  cbn [prop lookup_field String.eqb Ascii.eqb Bool.eqb
       Home.carryOverEnabled Home.parentPin Home.alarmVolume
       Home.fullCompletionMinutes Home.fallbackMinutes].
  rewrite Hpin. cbn [number_of].
  rewrite (clamp_of_in_range 0 100 (Fin qv) Hvol),
    (clamp_of_in_range 1 180 (Fin qf) Hfull),
    (clamp_of_in_range 1 180 (Fin qb) Hfall).
  repeat split.
Qed.

Lemma loaded_pin_passes (raw : slot) :
  Boolean (Some (Home.parentPin (Home.loadSettings raw)))
    && test_four_digits (Home.parentPin (Home.loadSettings raw)) = true.
Proof.
  destruct raw as [| | parsed]; [done | done |].
  destruct parsed; [done | ..]; cbn [Home.loadSettings Home.parentPin];
    match goal with |- context [prop ?j "parentPin"] =>
      destruct (prop j "parentPin") as [pin |] end; try done;
    by destruct (Boolean (Some pin) && test_four_digits pin) eqn:Hpass.
Qed.

End SettingsRoundTrip.



(** X15.  What the settings page saves it loads back: for settings a
    load returned (whole numbers within the ranges and a PIN that passes
    the test), loading what [saveSettings] wrote gives the same
    settings, and the main page reads the same carry-over switch, PIN,
    volume and weekday minutes from it. *)
Theorem saveSettings_round_trip (s : SettingsPage.Settings) :
  well_formed s →
  SettingsPage.loadSettings (SettingsPage.saveSettings s) = s
  ∧ (let main := Home.loadSettings (SettingsPage.saveSettings s) in
     Home.carryOverEnabled main = SettingsPage.carryOverEnabled s
     ∧ Home.parentPin main = SettingsPage.parentPin s
     ∧ Home.alarmVolume main = SettingsPage.alarmVolume s
     ∧ Home.fullCompletionMinutes main = SettingsPage.fullCompletionMinutes s
     ∧ Home.fallbackMinutes main = SettingsPage.fallbackMinutes s).
Proof.
  intros Hwf. split; [by apply load_saved | by apply main_load_saved].
Qed.

(** The stored settings, loaded, saved and loaded again. *)
Lemma saveSettings_round_trip_witness :
  let s := SettingsPage.loadSettings stored_settings in
  SettingsPage.loadSettings (SettingsPage.saveSettings s) = s
  ∧ Home.alarmVolume (Home.loadSettings (SettingsPage.saveSettings s))
    = int 70.
Proof.
  intros s.
  destruct (saveSettings_round_trip s (loaded_well_formed stored_settings))
    as [Hload (_ & _ & Hvolume & _)].
  split; [exact Hload | exact Hvolume].
Defined.

Section Editing.

Import SettingsPage.

Lemma toggleCarry_well_formed (s : Settings) (value : bool) :
  well_formed s → well_formed (toggleCarry s value).1.
Proof. by intros (? & ? & ? & ?). Qed.

Lemma updateAlarmTone_well_formed (s : Settings) (tone : AlarmTone) :
  well_formed s → well_formed (updateAlarmTone s tone).1.
Proof. by intros (? & ? & ? & ?). Qed.

Lemma updateAlarmVolume_well_formed (s : Settings) (volume : number) :
  well_formed s → in_range 0 100 volume →
  well_formed (updateAlarmVolume s volume).1.
Proof. by intros (? & ? & ? & ?) ?. Qed.

Lemma updateTimerMinutes_well_formed
    (s : Settings) (key : MinutesKey) (value : number) :
  well_formed s → value ≠ NaN →
  well_formed (updateTimerMinutes s key value).1.
Proof.
  intros (? & ? & ? & ?) Hvalue.
  pose proof (clamp_of_number 1 180 value ltac:(lia) Hvalue).
  by destruct key.
Qed.

(** The minutes the command keeps. *)
Lemma updateTimerMinutes_nearest
    (s : Settings) (key : MinutesKey) (value : number) :
  value ≠ NaN →
  ∃ n : Z,
    nearest_within 1 180 value = Some n
    ∧ match key with
      | KeyFullCompletionMinutes =>
          fullCompletionMinutes (updateTimerMinutes s key value).1 = int n
          ∧ fallbackMinutes (updateTimerMinutes s key value).1
            = fallbackMinutes s
      | KeyFallbackMinutes =>
          fallbackMinutes (updateTimerMinutes s key value).1 = int n
          ∧ fullCompletionMinutes (updateTimerMinutes s key value).1
            = fullCompletionMinutes s
      end.
Proof.
  intros Hvalue.
  destruct (clamp_nearest 1 180 value ltac:(lia) Hvalue) as (n & Hn & Hclamp).
  exists n. split; [exact Hn |].
  destruct key; cbn [updateTimerMinutes fst fullCompletionMinutes
                     fallbackMinutes]; by rewrite Hclamp.
Qed.

Lemma int_inj (a b : Z) : int a = int b → a = b.
Proof. unfold int, inject_Z. by intros [= ->]. Qed.

End Editing.

(** X16.  The settings page saves what it holds.  On settings a load
    returned, each editing command leaves in the slot settings that
    load back as the settings the page then holds, with the edited
    field at its new value: the switch of the carry-over, the choice of
    the tone, a change of the volume to a whole number from 0 to 100,
    and a change of the minutes to any input that is a number, which
    is kept as the nearest whole number (a half goes up) brought into
    1 to 180 while the other minutes field stays as it was. *)
Theorem edits_save_what_the_page_holds (s : SettingsPage.Settings) :
  well_formed s →
  (∀ value : bool,
     let '(next, saved) := SettingsPage.toggleCarry s value in
     SettingsPage.loadSettings saved = next
     ∧ SettingsPage.carryOverEnabled next = value)
  ∧ (∀ tone : SettingsPage.AlarmTone,
       let '(next, saved) := SettingsPage.updateAlarmTone s tone in
       SettingsPage.loadSettings saved = next
       ∧ SettingsPage.alarmTone next = tone)
  ∧ (∀ (key : SettingsPage.MinutesKey) (value : number),
       value ≠ NaN →
       let '(next, saved) := SettingsPage.updateTimerMinutes s key value in
       SettingsPage.loadSettings saved = next
       ∧ ∃ n : Z,
           nearest_within 1 180 value = Some n
           ∧ 1 ≤ n ≤ 180
           ∧ match key with
             | SettingsPage.KeyFullCompletionMinutes =>
                 SettingsPage.fullCompletionMinutes next = int n
                 ∧ SettingsPage.fallbackMinutes next
                   = SettingsPage.fallbackMinutes s
             | SettingsPage.KeyFallbackMinutes =>
                 SettingsPage.fallbackMinutes next = int n
                 ∧ SettingsPage.fullCompletionMinutes next
                   = SettingsPage.fullCompletionMinutes s
             end)
  ∧ (∀ volume : number,
       in_range 0 100 volume →
       let '(next, saved) := SettingsPage.updateAlarmVolume s volume in
       SettingsPage.loadSettings saved = next
       ∧ SettingsPage.alarmVolume next = volume).
Proof.
  intros Hwf. split; [| split; [| split]].
  - intros value. split; [| reflexivity].
    apply load_saved, toggleCarry_well_formed, Hwf.
  - intros tone. split; [| reflexivity].
    apply load_saved, updateAlarmTone_well_formed, Hwf.
  - intros key value Hvalue.
    pose proof (updateTimerMinutes_well_formed s key value Hwf Hvalue)
      as Hnext.
    split; [by apply load_saved |].
    destruct (updateTimerMinutes_nearest s key value Hvalue)
      as (n & Hnearest & Hfield).
    exists n. split; [exact Hnearest |]. split; [| exact Hfield].
    destruct Hnext as (_ & (full & Hfull & Hfull_range)
                       & (fallback & Hfallback & Hfallback_range) & _).
    destruct key, Hfield as [Hedited _]; rewrite Hedited in *.
    + apply int_inj in Hfull as ->. exact Hfull_range.
    + apply int_inj in Hfallback as ->. exact Hfallback_range.
  - intros volume Hvolume. split; [| reflexivity].
    by apply load_saved, updateAlarmVolume_well_formed.
Qed.

(** The fallback minutes set to 200.4 on the stored settings: 180
    minutes are kept, and they load back. *)
Lemma edits_save_what_the_page_holds_witness :
  let s := SettingsPage.loadSettings stored_settings in
  let '(next, saved) :=
    SettingsPage.updateTimerMinutes s SettingsPage.KeyFallbackMinutes
      (Fin (1002 # 5)) in
  SettingsPage.fallbackMinutes next = int 180
  ∧ SettingsPage.loadSettings saved = next.
Proof.
  intros s.
  destruct (edits_save_what_the_page_holds s
              (loaded_well_formed stored_settings)) as (_ & _ & Hminutes & _).
  specialize (Hminutes SettingsPage.KeyFallbackMinutes (Fin (1002 # 5))
                ltac:(discriminate)).
  destruct (SettingsPage.updateTimerMinutes s SettingsPage.KeyFallbackMinutes
              (Fin (1002 # 5))) as [next saved] eqn:Hedit.
  injection Hedit as <- <-.
  destruct Hminutes as [Hload _]. split; [reflexivity | exact Hload].
Defined.

(** X17.  Changing the PIN.  A new PIN that is not four digits is
    refused and nothing is written.  A new PIN of four digits is kept:
    it unlocks the page and no other input does, both pages load it
    back from the slot, and the other settings are as before. *)
Theorem updatePin_then_unlock (s : SettingsPage.Settings) (newPin : string) :
  (¬ is_pin (JStr newPin) → SettingsPage.updatePin s newPin = None)
  ∧ (is_pin (JStr newPin) →
     ∃ (next : SettingsPage.Settings) (saved : slot),
       SettingsPage.updatePin s newPin = Some (next, saved)
       ∧ SettingsPage.unlock next newPin = true
       ∧ (∀ pinInput : string,
            pinInput ≠ newPin → SettingsPage.unlock next pinInput = false)
       ∧ SettingsPage.parentPin (SettingsPage.loadSettings saved)
         = JStr newPin
       ∧ Home.parentPin (Home.loadSettings saved) = JStr newPin
       ∧ SettingsPage.carryOverEnabled next = SettingsPage.carryOverEnabled s
       ∧ SettingsPage.alarmTone next = SettingsPage.alarmTone s
       ∧ SettingsPage.alarmVolume next = SettingsPage.alarmVolume s
       ∧ SettingsPage.fullCompletionMinutes next
         = SettingsPage.fullCompletionMinutes s
       ∧ SettingsPage.fallbackMinutes next = SettingsPage.fallbackMinutes s).
Proof.
  assert (Htest : test_four_digits (JStr newPin) = true ↔ is_pin (JStr newPin)).
  { unfold test_four_digits, is_pin. cbn [ToString]. split.
    - intros Hpass. apply andb_prop in Hpass as [Hlen Hdigits].
      exists newPin. by apply Nat.eqb_eq in Hlen.
    - intros (p & [= <-] & Hlen & Hdigits).
      by rewrite Hlen, Hdigits. }
  split.
  - intros Hno. unfold SettingsPage.updatePin.
    destruct (test_four_digits (JStr newPin)) eqn:Hpass; [| done].
    exfalso. by apply Hno, Htest.
  - intros Hpin. pose proof Hpin as (p & [= <-] & Hlen & Hdigits).
    apply Htest in Hpin. unfold SettingsPage.updatePin. rewrite Hpin.
    eexists _, _. split; [reflexivity |].
    assert (Htruthy : Boolean (Some (JStr newPin)) = true).
    { cbn [Boolean]. by destruct newPin. }
    unfold SettingsPage.saveSettings, SettingsPage.stringify,
      SettingsPage.loadSettings, Home.loadSettings, SettingsPage.unlock.
    cbn [SettingsPage.parentPin SettingsPage.carryOverEnabled
         SettingsPage.alarmTone SettingsPage.alarmVolume
         SettingsPage.fullCompletionMinutes SettingsPage.fallbackMinutes
         Home.parentPin prop lookup_field String.eqb Ascii.eqb Bool.eqb].
    rewrite Htruthy, Hpin, String.eqb_refl.
    repeat split. intros pinInput Hother. by apply String.eqb_neq.
Qed.

Lemma updatePin_then_unlock_witness :
  SettingsPage.updatePin SettingsPage.DEFAULT_SETTINGS "12a4" = None
  ∧ ∃ (next : SettingsPage.Settings) (saved : slot),
      SettingsPage.updatePin SettingsPage.DEFAULT_SETTINGS "0420"
      = Some (next, saved)
      ∧ SettingsPage.unlock next "0420" = true
      ∧ SettingsPage.unlock next "1234" = false.
Proof.
  split.
  - destruct (updatePin_then_unlock SettingsPage.DEFAULT_SETTINGS "12a4")
      as [Hrefused _].
    apply Hrefused. intros (p & [= <-] & _ & Hdigits). discriminate Hdigits.
  - destruct (updatePin_then_unlock SettingsPage.DEFAULT_SETTINGS "0420")
      as [_ Hkept].
    destruct Hkept as (next & saved & Hupdate & Hunlock & Hothers & _).
    + exists "0420". by repeat split.
    + exists next, saved. split; [exact Hupdate |].
      split; [exact Hunlock |]. apply Hothers. discriminate.
Defined.
